(** * The wallet-connection widget (WalletConnect component)

    A shallow embedding of the final revision of the component: the provider
    resolver [getProvider], the two balance refreshes, the mount task
    ([checkExistingConnection], [setupEventListeners], the registered
    [cleanup]), [connectWallet] and [sendTransaction].

    Signals are the fields of [Session]; [localStorage] is a finite map from
    keys to strings; each provider keeps the list of listeners that [on]
    appended to it.  Every answer of the outside world (the ambient [window],
    the provider's replies, the chain client's replies) is an explicit input
    of the operation that awaits it, so an operation is a total function of
    the world it starts in and of the answers it gets.  A promise that never
    settles has no counterpart here. *)

From Stdlib Require Import ZArith String Ascii List Bool Lia DecimalString.
From Stdlib Require HexadecimalString DecimalN.
From Stdlib Require Import Floats.SpecFloat.
From stdpp Require Import base option list gmap strings.

Local Open Scope Z_scope.

(* ------------------------------------------------------------------ *)
(** ** JavaScript values used by the component *)

Module Js.

(** Numbers are IEEE binary64 values. *)
Definition prec : Z := 53.
Definition emax : Z := 1024.

(** [Number(b)] for a bigint [b]: the nearest double, ties to even. *)
Definition Number (b : Z) : spec_float := binary_normalize prec emax b 0 false.

(** The [/] operator on numbers. *)
Definition div (x y : spec_float) : spec_float := SFdiv prec emax x y.

(** The literals [1e18] and [1e6]; both integers are doubles. *)
Definition lit_1e18 : spec_float := Number (10 ^ 18).
Definition lit_1e6 : spec_float := Number (10 ^ 6).

(** Decimal digits of a non-negative integer. *)
Definition digits (n : Z) : string := NilZero.string_of_uint (N.to_uint (Z.to_N n)).

Fixpoint zeros (k : nat) : string :=
  match k with
  | O => EmptyString
  | S k' => String "0"%char (zeros k')
  end.

(** Steps 11.a to 11.c of Number.prototype.toFixed: the digits of [n] with a
    point before the last [f] of them, padded to [f + 1] digits. *)
Definition pointed (n : Z) (f : nat) : string :=
  let m := digits n in
  match f with
  | O => m
  | _ =>
      let k := String.length m in
      let m' := if (k <=? f)%nat then String.append (zeros (f + 1 - k)) m else m in
      let k' := String.length m' in
      String.append (substring 0 (k' - f) m')
                    (String "."%char (substring (k' - f) f m'))
  end.

(** The integer [n] for which [n / 10^f - m * 2^e] is closest to zero, the
    larger one when two are equally close ([m], [f] non-negative). *)
Definition nearest_scaled (m e : Z) (f : nat) : Z :=
  let s := m * 10 ^ Z.of_nat f in
  if 0 <=? e then s * 2 ^ e
  else (2 * s + 2 ^ (- e)) / 2 ^ (- e + 1).

(** [m * 2^e >= 10^21]. *)
Definition at_least_1e21 (m e : Z) : bool :=
  if 0 <=? e then 10 ^ 21 <=? m * 2 ^ e
  else 10 ^ 21 * 2 ^ (- e) <=? m.

Section ToFixed.
(** Number::toString on a finite double that is at least 1e21.  ECMA-262
    leaves its last digit to the engine; the widget never looks at it. *)
Variable Number_toString : spec_float -> string.

(** [x.toFixed(f)] for [0 <= f <= 100]. *)
Definition toFixed (x : spec_float) (f : nat) : string :=
  match x with
  | S754_nan => "NaN"
  | S754_infinity false => "Infinity"
  | S754_infinity true => "-Infinity"
  | S754_zero _ => pointed 0 f
  | S754_finite s m e =>
      let sign := if s then "-"%string else EmptyString in
      String.append sign
        (if at_least_1e21 (Zpos m) e
         then Number_toString (S754_finite false m e)
         else pointed (nearest_scaled (Zpos m) e f) f)
  end.
End ToFixed.

(** Truthiness of a string. *)
Definition truthy (s : string) : bool :=
  match s with
  | EmptyString => false
  | String _ _ => true
  end.

(** [a || b] on strings. *)
Definition or_else (a b : string) : string := if truthy a then a else b.

(** [hay.includes(needle)]. *)
Fixpoint includes (needle hay : string) : bool :=
  String.prefix needle hay ||
  match hay with
  | EmptyString => false
  | String _ rest => includes needle rest
  end.

(** Characters skipped by StrWhiteSpaceChar, within ASCII. *)
Definition is_space (c : ascii) : bool :=
  let n := nat_of_ascii c in
  ((9 <=? n) && (n <=? 13) || (n =? 32))%nat.

Fixpoint trim_start (s : string) : string :=
  match s with
  | String c rest => if is_space c then trim_start rest else s
  | EmptyString => EmptyString
  end.

Definition hex_value (c : ascii) : option Z :=
  let n := nat_of_ascii c in
  if ((48 <=? n) && (n <=? 57))%nat then Some (Z.of_nat n - 48)
  else if ((97 <=? n) && (n <=? 102))%nat then Some (Z.of_nat n - 87)
  else if ((65 <=? n) && (n <=? 70))%nat then Some (Z.of_nat n - 55)
  else None.

(** The longest prefix of hexadecimal digits, read as an integer; [None]
    when that prefix is empty. *)
Fixpoint hex_prefix (acc : option Z) (s : string) : option Z :=
  match s with
  | EmptyString => acc
  | String c rest =>
      match hex_value c with
      | Some d => hex_prefix (Some (16 * default 0 acc + d)) rest
      | None => acc
      end
  end.

Definition strip_sign (s : string) : bool * string :=
  match s with
  | String "-"%char rest => (true, rest)
  | String "+"%char rest => (false, rest)
  | _ => (false, s)
  end.

Definition strip_0x (s : string) : string :=
  match s with
  | String "0"%char (String "x"%char rest) => rest
  | String "0"%char (String "X"%char rest) => rest
  | _ => s
  end.

(** [parseInt(s, 16)]. *)
Definition parseInt16 (s : string) : spec_float :=
  let '(neg, body) := strip_sign (trim_start s) in
  match hex_prefix None (strip_0x body) with
  | None => S754_nan
  | Some 0 => S754_zero neg
  | Some n => binary_normalize prec emax (if neg then - n else n) 0 false
  end.

End Js.

(* ------------------------------------------------------------------ *)
(** ** The ambient context: [window] and the providers it exposes *)

(** A provider is an object; only its identity matters here. *)
Abbreviation Provider := nat (only parsing).

(** [window.frame.sdk.wallet.ethProvider], each level optional. *)
Record Wallet := { ethProvider : option Provider }.
Record FrameSDK := { wallet : option Wallet }.

(** [window.frame]: the host SDK and the older [frame.ethereum] handle. *)
Record Frame := { sdk : option FrameSDK; frame_ethereum : option Provider }.

(** [window.ethereum]: the injected provider, with the optional [providers]
    list some browsers hang on it. *)
Record Ethereum := { handle : Provider; providers : option (list Provider) }.

Record Window := { frame : option Frame; ethereum : option Ethereum }.

(** The ambient context of a call; [None] when [typeof window] is
    ['undefined']. *)
Abbreviation Ambient := (option Window) (only parsing).

(** Optional chaining: [o?.f]. *)
Definition chain {A B : Type} (o : option A) (f : A -> option B) : option B :=
  match o with
  | Some a => f a
  | None => None
  end.
Infix "?>" := chain (at level 50, left associativity).

(** Which line [getProvider] logged. *)
Inductive ProviderLog :=
| UsingFrameSDK
| UsingBrowser
| UsingInjected
| NoProviderFound.

Definition getFrameSDK (w : Ambient) : option FrameSDK :=
  match w with
  | Some win => frame win ?> sdk
  | None => None
  end.

(** [getProvider], with the message it logs. *)
Definition getProvider_logged (w : Ambient) : ProviderLog * option Provider :=
  let frameSDK := getFrameSDK w in
  match frameSDK ?> wallet ?> ethProvider with
  | Some p => (UsingFrameSDK, Some p)
  | None =>
      match w ?> ethereum with
      | Some e => (UsingBrowser, Some (handle e))
      | None =>
          match w with
          | Some win =>
              let injectedProviders := default [] (ethereum win ?> providers) in
              if bool_decide (0 < length injectedProviders)%nat
              then (UsingInjected, head injectedProviders)
              else (NoProviderFound, None)
          | None => (NoProviderFound, None)
          end
      end
  end.

Definition getProvider (w : Ambient) : option Provider := snd (getProvider_logged w).

(** The three sources of the resolver as the specification lists them. *)
Definition host_frame_provider (w : Ambient) : option Provider :=
  w ?> frame ?> sdk ?> wallet ?> ethProvider.

Definition browser_provider (w : Ambient) : option Provider :=
  w ?> ethereum ?> (fun e => Some (handle e)).

Definition multi_provider_first (w : Ambient) : option Provider :=
  w ?> ethereum ?> providers ?> head.

Fixpoint first_found (sources : list (option Provider)) : option Provider :=
  match sources with
  | [] => None
  | Some p :: _ => Some p
  | None :: rest => first_found rest
  end.

(** resolveProvider() in the specification's words: the first source that
    exists, in the stated order. *)
Definition resolveProvider_spec (w : Ambient) : option Provider :=
  first_found [host_frame_provider w; browser_provider w; multi_provider_first w].

(** A resolver that consults the first two sources only. *)
Definition resolveProvider_two_sources (w : Ambient) : option Provider :=
  first_found [host_frame_provider w; browser_provider w].

(* ------------------------------------------------------------------ *)
(** ** Session state *)

Record Session := {
  address : string;
  chainId : spec_float;
  isConnected : bool;
  isConnecting : bool;
  error : string;
  ethBalance : string;
  usdcBalance : string;
  isSending : bool;
  showWallet : bool
}.

(** The signals as [useSignal] creates them. *)
Definition initial_session : Session :=
  {| address := ""; chainId := S754_zero false; isConnected := false;
     isConnecting := false; error := ""; ethBalance := ""; usdcBalance := "";
     isSending := false; showWallet := true |}.

(** An assignment to one signal. *)
Inductive Write :=
| WAddress (v : string)
| WChainId (v : spec_float)
| WIsConnected (v : bool)
| WIsConnecting (v : bool)
| WError (v : string)
| WEthBalance (v : string)
| WUsdcBalance (v : string).

Definition apply_write (wr : Write) (s : Session) : Session :=
  match wr with
  | WAddress v =>
      {| address := v; chainId := chainId s; isConnected := isConnected s;
         isConnecting := isConnecting s; error := error s; ethBalance := ethBalance s;
         usdcBalance := usdcBalance s; isSending := isSending s; showWallet := showWallet s |}
  | WChainId v =>
      {| address := address s; chainId := v; isConnected := isConnected s;
         isConnecting := isConnecting s; error := error s; ethBalance := ethBalance s;
         usdcBalance := usdcBalance s; isSending := isSending s; showWallet := showWallet s |}
  | WIsConnected v =>
      {| address := address s; chainId := chainId s; isConnected := v;
         isConnecting := isConnecting s; error := error s; ethBalance := ethBalance s;
         usdcBalance := usdcBalance s; isSending := isSending s; showWallet := showWallet s |}
  | WIsConnecting v =>
      {| address := address s; chainId := chainId s; isConnected := isConnected s;
         isConnecting := v; error := error s; ethBalance := ethBalance s;
         usdcBalance := usdcBalance s; isSending := isSending s; showWallet := showWallet s |}
  | WError v =>
      {| address := address s; chainId := chainId s; isConnected := isConnected s;
         isConnecting := isConnecting s; error := v; ethBalance := ethBalance s;
         usdcBalance := usdcBalance s; isSending := isSending s; showWallet := showWallet s |}
  | WEthBalance v =>
      {| address := address s; chainId := chainId s; isConnected := isConnected s;
         isConnecting := isConnecting s; error := error s; ethBalance := v;
         usdcBalance := usdcBalance s; isSending := isSending s; showWallet := showWallet s |}
  | WUsdcBalance v =>
      {| address := address s; chainId := chainId s; isConnected := isConnected s;
         isConnecting := isConnecting s; error := error s; ethBalance := ethBalance s;
         usdcBalance := v; isSending := isSending s; showWallet := showWallet s |}
  end.

(** The three-valued status the widget shows: the wallet panel when
    [isConnected], otherwise the button, labelled "Connecting..." while
    [isConnecting]. *)
Inductive ConnectionStatus := Disconnected | Connecting | Connected.

Definition connectionStatus (s : Session) : ConnectionStatus :=
  if isConnected s then Connected
  else if isConnecting s then Connecting
  else Disconnected.

(* ------------------------------------------------------------------ *)
(** ** The world an operation runs in *)

Inductive Method := eth_accounts | eth_requestAccounts | eth_chainId.

(** The two closures [setupEventListeners] subscribes and the empty arrow
    functions [cleanup] passes to [on]. *)
Inductive Listener :=
| AccountsChangedHandler
| ChainChangedHandler
| EmptyAccountsChanged
| EmptyChainChanged.

(** What an operation does to the outside, in order. *)
Inductive Event :=
| EvWrite (wr : Write)
| EvRequest (p : Provider) (m : Method)
| EvGetBalance (account : string)
| EvBalanceOf (contract account : string)
| EvTransfer (p : Provider) (contract to : string) (amount : Z) (account : string).

Record World := {
  sess : Session;
  localStorage : gmap string string;
  listeners : gmap Provider (list Listener);
  trace : list Event
}.

Definition initial_world : World :=
  {| sess := initial_session; localStorage := ∅; listeners := ∅; trace := [] |}.

(** A thrown object, as far as the widget inspects it: its [message]
    property, which may be missing. *)
Record JsError := { message : option string }.

(** [undefined] and [null]: reading a property of either throws. *)
Inductive Nullish := Undefined | Null.

(** What a promise can be rejected with, and so what a [catch] can receive:
    an object, a primitive (a string, a number, a boolean; [shown] is how the
    engine prints it in its messages, as in [string 'boom']), or nothing.
    A provider is free to reject with any of them. *)
Inductive Reason :=
| Raised (e : JsError)
| Primitive (shown : string)
| Empty (n : Nullish).

Coercion Raised : JsError >-> Reason.

(** How an awaited promise settles. *)
Inductive Settled (A : Type) :=
| Fulfilled (a : A)
| Rejected (e : Reason).
Arguments Fulfilled {A} a.
Arguments Rejected {A} e.

(** Completion of a block: normally, or by a throw. *)
Inductive Outcome (A : Type) :=
| Val (a : A)
| Thrown (e : Reason).
Arguments Val {A} a.
Arguments Thrown {A} e.

Definition M (A : Type) : Type := World -> Outcome A * World.

Definition ret {A} (a : A) : M A := fun w => (Val a, w).

Definition bind {A B} (m : M A) (k : A -> M B) : M B :=
  fun w =>
    match m w with
    | (Val a, w') => k a w'
    | (Thrown e, w') => (Thrown e, w')
    end.

Definition throw {A} (e : Reason) : M A := fun w => (Thrown e, w).

(** [try { body } catch (err) { handler }]. *)
Definition try_catch {A} (body : M A) (handler : Reason -> M A) : M A :=
  fun w =>
    match body w with
    | (Val a, w') => (Val a, w')
    | (Thrown e, w') => handler e w'
    end.

(** [try { body } finally { fin }]: [fin] runs on both completions. *)
Definition try_finally {A} (body : M A) (fin : M unit) : M A :=
  fun w =>
    match body w with
    | (o, w') =>
        match fin w' with
        | (Val _, w'') => (o, w'')
        | (Thrown e, w'') => (Thrown e, w'')
        end
    end.

Declare Scope js_scope.
Delimit Scope js_scope with js.
Notation "x ← m ; k" := (bind m (fun x => k))
  (at level 20, m at level 100, k at level 200, only parsing) : js_scope.
Notation "m ;; k" := (bind m (fun _ => k))
  (at level 100, k at level 200, only parsing, right associativity) : js_scope.

Definition get_session : M Session := fun w => (Val (sess w), w).
Definition get_storage : M (gmap string string) := fun w => (Val (localStorage w), w).

Definition log_event (ev : Event) (w : World) : World :=
  {| sess := sess w; localStorage := localStorage w; listeners := listeners w;
     trace := trace w ++ [ev] |}.

(** [signal.value = v]. *)
Definition assign (wr : Write) : M unit :=
  fun w =>
    (Val tt,
     {| sess := apply_write wr (sess w); localStorage := localStorage w;
        listeners := listeners w; trace := trace w ++ [EvWrite wr] |}).

Definition with_storage (f : gmap string string -> gmap string string) : M unit :=
  fun w =>
    (Val tt,
     {| sess := sess w; localStorage := f (localStorage w);
        listeners := listeners w; trace := trace w |}).

(** [provider.on(event, listener)] appends the listener. *)
Definition on (p : Provider) (l : Listener) : M unit :=
  fun w =>
    (Val tt,
     {| sess := sess w; localStorage := localStorage w;
        listeners := <[p := default [] (listeners w !! p) ++ [l]]> (listeners w);
        trace := trace w |}).

(** An awaited call whose promise settles as [r]. *)
Definition await {A} (ev : Event) (r : Settled A) : M A :=
  fun w =>
    match r with
    | Fulfilled a => (Val a, log_event ev w)
    | Rejected e => (Thrown e, log_event ev w)
    end.

Definition request {A} (p : Provider) (m : Method) (r : Settled A) : M A :=
  await (EvRequest p m) r.

(* ------------------------------------------------------------------ *)
(** ** The operations of the component *)

(** A reply to an account query: an array of account strings, or nothing
    usable ([null], [undefined]). *)
Abbreviation Accounts := (option (list string)) (only parsing).

(** Everything one operation learns from outside.  The ambient context is
    sampled again at each resolution: [win] by the operation itself,
    [win_eth] and [win_usdc] by the two balance refreshes it starts. *)
Record Env := {
  win : Ambient;
  win_eth : Ambient;
  win_usdc : Ambient;
  accounts_reply : Settled Accounts;
  requestAccounts_reply : Settled Accounts;
  chainId_reply : Settled (option string);
  getBalance_reply : Settled Z;
  balanceOf_reply : Settled Z;
  transfer_reply : Settled string
}.

Definition USDC_CONTRACT : string := "0x833589fCD6eDb6E08f4c7C32D4f71b54bdA02913".

Definition nullish_name (n : Nullish) : string :=
  match n with
  | Undefined => "undefined"
  | Null => "null"
  end.

(** The TypeError of reading [property] of [undefined] or [null], and the one
    of writing [property] on a primitive in strict code (modules are strict).
    The wording is V8's; no code of the widget reads it. *)
Definition cannot_read (n : Nullish) (property : string) : JsError :=
  {| message :=
       Some ("Cannot read properties of " ++ nullish_name n
             ++ " (reading '" ++ property ++ "')")%string |}.

Definition cannot_create (property shown : string) : JsError :=
  {| message := Some ("Cannot create property '" ++ property ++ "' on " ++ shown)%string |}.

(** [err.message || fallback], for an object [err]. *)
Definition message_or (err : JsError) (fallback : string) : string :=
  Js.or_else (default EmptyString (message err)) fallback.

(** [err.message?.includes(needle)], as a condition, for an object [err]. *)
Definition message_includes (err : JsError) (needle : string) : bool :=
  match message err with
  | Some m => Js.includes needle m
  | None => false
  end.

(** The same two expressions on whatever a [catch] received.  [err.message]
    is read first: on [undefined] or [null] the read throws, inside the catch
    block; on a primitive it gives [undefined], so the fallback applies and
    [?.] skips the call. *)
Definition caught_message_or (err : Reason) (fallback : string) : M string :=
  match err with
  | Raised obj => ret (message_or obj fallback)
  | Primitive _ => ret fallback
  | Empty n => throw (cannot_read n "message")
  end.

Definition caught_message_includes (err : Reason) (needle : string) : M bool :=
  match err with
  | Raised obj => ret (message_includes obj needle)
  | Primitive _ => ret false
  | Empty n => throw (cannot_read n "message")
  end.

Section Widget.

Variable Number_toString : spec_float -> string.

Local Open Scope js_scope.

Definition saveConnectionState (w : Ambient) : M unit :=
  match w with
  | Some _ =>
      s ← get_session;
      with_storage (fun st =>
        <["walletAddress" := address s]> (<["walletConnected" := "true"%string]> st))
  | None => ret tt
  end.

Definition clearConnectionState (w : Ambient) : M unit :=
  match w with
  | Some _ =>
      with_storage (fun st => delete "walletAddress" (delete "walletConnected" st))
  | None => ret tt
  end.

Definition fetchEthBalance (w : Ambient) (reply : Settled Z) (account : string) : M unit :=
  try_catch
    (match getProvider w with
     | None => ret tt
     | Some _ =>
         balance ← await (EvGetBalance account) reply;
         assign (WEthBalance
                   (Js.toFixed Number_toString (Js.div (Js.Number balance) Js.lit_1e18) 4))
     end)
    (fun _ => ret tt).

Definition fetchUsdcBalance (w : Ambient) (reply : Settled Z) (account : string) : M unit :=
  try_catch
    (match getProvider w with
     | None => ret tt
     | Some _ =>
         balance ← await (EvBalanceOf USDC_CONTRACT account) reply;
         assign (WUsdcBalance
                   (Js.toFixed Number_toString (Js.div (Js.Number balance) Js.lit_1e6) 2))
     end)
    (fun _ => ret tt).

(** [if (chainIdHex) chainId.value = parseInt(chainIdHex, 16)]. *)
Definition adopt_chainId (chainIdHex : option string) : M unit :=
  match chainIdHex with
  | Some hex => if Js.truthy hex then assign (WChainId (Js.parseInt16 hex)) else ret tt
  | None => ret tt
  end.

(** The steps shared by every path that adopts an account. *)
Definition adopt_account (e : Env) (account : string) : M unit :=
  assign (WAddress account);;
  assign (WIsConnected true);;
  saveConnectionState (win e);;
  fetchEthBalance (win_eth e) (getBalance_reply e) account;;
  fetchUsdcBalance (win_usdc e) (balanceOf_reply e) account.

Definition checkExistingConnection (e : Env) : M unit :=
  try_catch
    (st ← get_storage;
     let wasConnected :=
       match win e with
       | Some _ => bool_decide (st !! "walletConnected" = Some "true"%string)
       | None => false
       end in
     let savedAddress : option string :=
       match win e with
       | Some _ => st !! "walletAddress"
       | None => None
       end in
     match getProvider (win e) with
     | None =>
         assign (WError
           "No wallet provider found. Please install MetaMask or use a Farcaster app.")
     | Some provider =>
         accounts ← request provider eth_accounts (accounts_reply e);
         match accounts with
         | Some (connectedAddr :: _) =>
             adopt_account e connectedAddr;;
             chainIdHex ← request provider eth_chainId (chainId_reply e);
             adopt_chainId chainIdHex
         | _ =>
             match savedAddress with
             | Some saved =>
                 if wasConnected && Js.truthy saved then
                   try_catch
                     (request provider eth_requestAccounts (requestAccounts_reply e);;
                      adopt_account e saved)
                     (fun _ =>
                        assign (WError
                          "Failed to reconnect to wallet. Please try connecting again.");;
                        clearConnectionState (win e))
                 else ret tt
             | None => ret tt
             end
         end
     end)
    (fun _ => assign (WError "Error checking wallet connection. Please try again.")).

(** The listener subscribed to [accountsChanged]. *)
Definition accountsChangedHandler (e : Env) (accounts : list string) : M unit :=
  match accounts with
  | first :: _ => adopt_account e first
  | [] =>
      assign (WAddress "");;
      assign (WIsConnected false);;
      clearConnectionState (win e);;
      assign (WEthBalance "");;
      assign (WUsdcBalance "")
  end.

(** The listener subscribed to [chainChanged]. *)
Definition chainChangedHandler (e : Env) (chainIdHex : string) : M unit :=
  assign (WChainId (Js.parseInt16 chainIdHex));;
  s ← get_session;
  if Js.truthy (address s) then
    fetchEthBalance (win_eth e) (getBalance_reply e) (address s);;
    fetchUsdcBalance (win_usdc e) (balanceOf_reply e) (address s)
  else ret tt.

Definition setupEventListeners (w : Ambient) : M unit :=
  match getProvider w with
  | Some provider => on provider AccountsChangedHandler;; on provider ChainChangedHandler
  | None => ret tt
  end.

(** The function handed to [cleanup]. *)
Definition cleanup (w : Ambient) : M unit :=
  match getProvider w with
  | Some provider => on provider EmptyAccountsChanged;; on provider EmptyChainChanged
  | None => ret tt
  end.

Definition connectWallet (e : Env) : M unit :=
  try_finally
    (try_catch
       (assign (WIsConnecting true);;
        assign (WError "");;
        match getProvider (win e) with
        | None =>
            assign (WError
              "No wallet provider found. Please install MetaMask or use a Farcaster app.");;
            assign (WIsConnecting false)
        | Some provider =>
            accounts ← request provider eth_requestAccounts (requestAccounts_reply e);
            match accounts with
            | Some (connectedAddr :: _) =>
                adopt_account e connectedAddr;;
                chainIdHex ← request provider eth_chainId (chainId_reply e);
                adopt_chainId chainIdHex
            | _ => assign (WError "No accounts found. Please try again.")
            end
        end)
       (fun err =>
          text ← caught_message_or err "Failed to connect wallet. Please try again.";
          assign (WError text)))
    (assign (WIsConnecting false)).

(** [window.frame?.ethereum || window.ethereum]. *)
Definition frame_or_browser (window : Window) : option Provider :=
  match frame window ?> frame_ethereum with
  | Some p => Some p
  | None => ethereum window ?> (fun eth => Some (handle eth))
  end.

Definition sendTransaction (e : Env) : M unit :=
  s ← get_session;
  if negb (isConnected s) then assign (WError "Please connect your wallet first")
  else
    match win e with
    | None => throw {| message := Some "window is not defined"%string |}
    | Some window =>
        match frame_or_browser window with
        | None => assign (WError "No Ethereum provider found")
        | Some eth =>
            try_catch
              (let amount := 10000 in
               accounts ← request eth eth_accounts (accounts_reply e);
               proceed ←
                 match accounts with
                 | Some (_ :: _) => ret true
                 | _ =>
                     try_catch
                       (request eth eth_requestAccounts (requestAccounts_reply e);;
                        ret true)
                       (fun _ =>
                          assign (WError "Please approve the wallet connection request");;
                          ret false)
                 end;
               if proceed : bool then
                 s1 ← get_session;
                 await (EvTransfer eth USDC_CONTRACT (address s1) amount (address s1))
                       (transfer_reply e);;
                 s2 ← get_session;
                 fetchUsdcBalance (win_usdc e) (balanceOf_reply e) (address s2)
               else ret tt)
              (fun err =>
                 authorized ← caught_message_includes err "authorized";
                 if authorized : bool
                 then assign (WError "Please approve the transaction in your wallet")
                 else
                   text ← caught_message_or err "Failed to send transaction";
                   assign (WError text))
        end
    end.

(** A provider emitting an event calls, in order, the listeners subscribed
    to that event. *)
Fixpoint call_accounts_listeners (e : Env) (accounts : list string) (ls : list Listener)
  : M unit :=
  match ls with
  | [] => ret tt
  | l :: rest =>
      match l with
      | AccountsChangedHandler => accountsChangedHandler e accounts
      | _ => ret tt
      end;;
      call_accounts_listeners e accounts rest
  end.

Fixpoint call_chain_listeners (e : Env) (chainIdHex : string) (ls : list Listener)
  : M unit :=
  match ls with
  | [] => ret tt
  | l :: rest =>
      match l with
      | ChainChangedHandler => chainChangedHandler e chainIdHex
      | _ => ret tt
      end;;
      call_chain_listeners e chainIdHex rest
  end.

Definition emit_accountsChanged (e : Env) (p : Provider) (accounts : list string) : M unit :=
  fun w => call_accounts_listeners e accounts (default [] (listeners w !! p)) w.

Definition emit_chainChanged (e : Env) (p : Provider) (chainIdHex : string) : M unit :=
  fun w => call_chain_listeners e chainIdHex (default [] (listeners w !! p)) w.

(** The mount task: the connection check starts at once, the listeners are
    subscribed one second later ([late] is the ambient context by then).
    The two touch disjoint parts of the world. *)
Definition initializeSession (e : Env) (late : Ambient) : M unit :=
  checkExistingConnection e;;
  setupEventListeners late.

(** The operations that drive the session. *)
Inductive Operation :=
| OpInitializeSession (e : Env) (late : Ambient)
| OpConnect (e : Env)
| OpAccountsChanged (e : Env) (p : Provider) (accounts : list string)
| OpChainChanged (e : Env) (p : Provider) (chainIdHex : string)
| OpSendTransfer (e : Env)
| OpTeardown (w : Ambient).

Definition perform (op : Operation) : M unit :=
  match op with
  | OpInitializeSession e late => initializeSession e late
  | OpConnect e => connectWallet e
  | OpAccountsChanged e p accounts => emit_accountsChanged e p accounts
  | OpChainChanged e p chainIdHex => emit_chainChanged e p chainIdHex
  | OpSendTransfer e => sendTransaction e
  | OpTeardown w => cleanup w
  end.

Fixpoint perform_all (ops : list Operation) (w : World) : World :=
  match ops with
  | [] => w
  | op :: rest => perform_all rest (snd (perform op w))
  end.

End Widget.

(* ------------------------------------------------------------------ *)
(** ** The catch block of the earlier revisions of [connectWallet]

    There the catch parameter is itself named [error] and hides the signal,
    so the first statement,
    [error.value = `Error connecting via ...: ${error.message || error}`],
    works on the caught value, not on the signal.  Its right-hand side reads
    [error.message], which throws on [undefined] and [null]; the assignment
    then creates [value] on the caught value, which throws on a primitive.
    Only for an object do the two signal writes that follow run and reset
    the connection. *)

Module Earlier.

Definition connectWallet_catch (caught : Reason) : M unit :=
  match caught with
  | Raised _ => bind (assign (WAddress "")) (fun _ => assign (WIsConnected false))
  | Primitive shown => throw (cannot_create "value" shown)
  | Empty n => throw (cannot_read n "message")
  end.

End Earlier.

(* ------------------------------------------------------------------ *)
(** ** Vocabulary of the statements *)

(** The values assigned to [isConnecting] along a trace, in order. *)
Fixpoint connecting_values (t : list Event) : list bool :=
  match t with
  | [] => []
  | EvWrite (WIsConnecting b) :: rest => b :: connecting_values rest
  | _ :: rest => connecting_values rest
  end.

(** How often a flag that starts at [b] and takes the values [vs] in turn
    goes from set to cleared. *)
Fixpoint falling_edges (b : bool) (vs : list bool) : nat :=
  match vs with
  | [] => 0%nat
  | v :: rest => ((if b && negb v then 1 else 0) + falling_edges v rest)%nat
  end.

(** Account strings are [0x...] strings; in particular none is empty. *)
Definition accounts_named (accounts : list string) : Prop :=
  Forall (fun a => Js.truthy a = true) accounts.

Definition reply_named (r : Settled (option (list string))) : Prop :=
  match r with
  | Fulfilled (Some accounts) => accounts_named accounts
  | _ => True
  end.

(** The account lists an operation receives name accounts. *)
Definition receives_named_accounts (op : Operation) : Prop :=
  match op with
  | OpInitializeSession e _ => reply_named (accounts_reply e)
  | OpConnect e => reply_named (requestAccounts_reply e)
  | OpAccountsChanged _ _ accounts => accounts_named accounts
  | OpChainChanged _ _ _ | OpSendTransfer _ | OpTeardown _ => True
  end.

(** The session invariant of the data model. *)
Definition connected_iff_address (s : Session) : Prop :=
  connectionStatus s = Connected <-> address s <> EmptyString.

(** The invariant on the two signals that carry it. *)
Definition flag_matches_address (s : Session) : Prop :=
  isConnected s = true <-> address s <> EmptyString.

(** [m] keeps the invariant, however it completes. *)
Definition preserves {A : Type} (m : M A) : Prop :=
  forall w, flag_matches_address (sess w) -> flag_matches_address (sess (snd (m w))).

(** The persisted session record is absent. *)
Definition record_cleared (st : gmap string string) : Prop :=
  st !! "walletConnected" = None /\ st !! "walletAddress" = None.

(** The rejection that reaches the catch block of [connectWallet], if any:
    that of the authorization request, or that of the chain id query made
    once an account was granted. *)
Definition connect_caught (e : Env) : option Reason :=
  match getProvider (win e) with
  | None => None
  | Some _ =>
      match requestAccounts_reply e with
      | Rejected reason => Some reason
      | Fulfilled (Some (_ :: _)) =>
          match chainId_reply e with
          | Rejected reason => Some reason
          | Fulfilled _ => None
          end
      | Fulfilled _ => None
      end
  end.

(** The rejection that reaches the outer catch block of [sendTransaction],
    if any: that of the account query, or that of the transfer once the
    wallet listed an account or granted the prompt.  A rejected prompt is
    caught by the inner block. *)
Definition transfer_caught (e : Env) : option Reason :=
  match accounts_reply e with
  | Rejected reason => Some reason
  | Fulfilled accounts =>
      let submitted :=
        match accounts with
        | Some (_ :: _) => true
        | _ => match requestAccounts_reply e with
               | Fulfilled _ => true
               | Rejected _ => false
               end
        end in
      if submitted : bool then
        match transfer_reply e with
        | Rejected reason => Some reason
        | Fulfilled _ => None
        end
      else None
  end.

(** How a catch block that reads [err.message] completes: normally, unless
    it caught [undefined] or [null]. *)
Definition completes_after_catch (caught : option Reason) : Outcome unit :=
  match caught with
  | Some (Empty n) => Thrown (cannot_read n "message")
  | _ => Val tt
  end.

(** What the catch block [error.value = err.message || fallback] leaves in
    [error], which held [before] when the block was entered. *)
Definition error_after_catch (before : string) (caught : Reason) (fallback : string)
  : string :=
  match caught with
  | Raised obj => message_or obj fallback
  | Primitive _ => fallback
  | Empty _ => before
  end.

(* ------------------------------------------------------------------ *)
(** ** Sample worlds *)

Module Sample.

(** A stand-in for the exponent form of large numbers; no sample reaches it. *)
Definition exponent_form (x : spec_float) : string := EmptyString.

(** A desktop browser with one injected wallet. *)
Definition browser : Ambient :=
  Some {| frame := None; ethereum := Some {| handle := 7%nat; providers := None |} |}.

Definition user_rejected : JsError :=
  {| message := Some "User rejected the request."%string |}.

(** The wallet grants [0xabc] on request. *)
Definition granting : Env :=
  {| win := browser; win_eth := browser; win_usdc := browser;
     accounts_reply := Fulfilled (Some []);
     requestAccounts_reply := Fulfilled (Some ["0xabc"%string]);
     chainId_reply := Fulfilled (Some "0x2105"%string);
     getBalance_reply := Fulfilled 1500000000000000000;
     balanceOf_reply := Fulfilled 1234567;
     transfer_reply := Fulfilled "0x5e1f"%string |}.

(** The user dismisses the wallet's prompt. *)
Definition rejecting : Env :=
  {| win := browser; win_eth := browser; win_usdc := browser;
     accounts_reply := Fulfilled (Some []);
     requestAccounts_reply := Rejected user_rejected;
     chainId_reply := Fulfilled (Some "0x2105"%string);
     getBalance_reply := Fulfilled 1500000000000000000;
     balanceOf_reply := Fulfilled 1234567;
     transfer_reply := Fulfilled "0x5e1f"%string |}.

(** A session connected to [0xabc], as [connectWallet] leaves it. *)
Definition connected_world : World :=
  snd (connectWallet exponent_form granting initial_world).

(** The widget mounted in the browser, listeners subscribed. *)
Definition mounted_world : World :=
  snd (initializeSession exponent_form granting browser initial_world).

(** The same widget after its teardown ran. *)
Definition torn_down_world : World := snd (cleanup browser mounted_world).

(** A host frame that exposes its wallet through the SDK only. *)
Definition sdk_only : Window :=
  {| frame := Some {| sdk := Some {| wallet := Some {| ethProvider := Some 3%nat |} |};
                      frame_ethereum := None |};
     ethereum := None |}.

(** The answers of [granting], inside that frame. *)
Definition in_frame : Env :=
  {| win := Some sdk_only; win_eth := Some sdk_only; win_usdc := Some sdk_only;
     accounts_reply := Fulfilled (Some ["0xabc"%string]);
     requestAccounts_reply := Fulfilled (Some ["0xabc"%string]);
     chainId_reply := Fulfilled (Some "0x2105"%string);
     getBalance_reply := Fulfilled 1500000000000000000;
     balanceOf_reply := Fulfilled 1234567;
     transfer_reply := Fulfilled "0x5e1f"%string |}.

(** The wallet lists [0xabc] without being asked, and refuses the transfer
    as unauthorized. *)
Definition listing : Env :=
  {| win := browser; win_eth := browser; win_usdc := browser;
     accounts_reply := Fulfilled (Some ["0xabc"%string]);
     requestAccounts_reply := Rejected user_rejected;
     chainId_reply := Fulfilled (Some "0x2105"%string);
     getBalance_reply := Fulfilled 1500000000000000000;
     balanceOf_reply := Fulfilled 1234567;
     transfer_reply :=
       Rejected {| message := Some "Account not authorized for this action"%string |} |}.

(** A render outside any page: [window] is undefined. *)
Definition server : Env :=
  {| win := None; win_eth := None; win_usdc := None;
     accounts_reply := Fulfilled (Some []);
     requestAccounts_reply := Fulfilled (Some []);
     chainId_reply := Fulfilled None;
     getBalance_reply := Fulfilled 0;
     balanceOf_reply := Fulfilled 0;
     transfer_reply := Fulfilled "0x5e1f"%string |}.

(** The wallet answers the prompt with no account. *)
Definition empty_handed : Env :=
  {| win := browser; win_eth := browser; win_usdc := browser;
     accounts_reply := Fulfilled (Some []);
     requestAccounts_reply := Fulfilled (Some []);
     chainId_reply := Fulfilled (Some "0x2105"%string);
     getBalance_reply := Fulfilled 1500000000000000000;
     balanceOf_reply := Fulfilled 1234567;
     transfer_reply := Fulfilled "0x5e1f"%string |}.

(** The wallet grants [0xabc] and then fails the chain id query. *)
Definition chainless : Env :=
  {| win := browser; win_eth := browser; win_usdc := browser;
     accounts_reply := Fulfilled (Some []);
     requestAccounts_reply := Fulfilled (Some ["0xabc"%string]);
     chainId_reply := Rejected {| message := Some "Internal JSON-RPC error."%string |};
     getBalance_reply := Fulfilled 1500000000000000000;
     balanceOf_reply := Fulfilled 1234567;
     transfer_reply := Fulfilled "0x5e1f"%string |}.

(** A page reloaded over the record an earlier visit left. *)
Definition returning_world : World :=
  {| sess := initial_session;
     localStorage := <["walletAddress" := "0xabc"%string]>
                       (<["walletConnected" := "true"%string]> ∅);
     listeners := ∅; trace := [] |}.

End Sample.

(* ------------------------------------------------------------------ *)
(** ** What the widget displays, and its two remaining actions *)

Module JsText.

(** [s.slice(0, n)]. *)
Definition slice_first (n : nat) (s : string) : string := substring 0 n s.

(** [s.slice(-n)]. *)
Definition slice_last (n : nat) (s : string) : string :=
  substring (String.length s - n) n s.

(** [b.toString()] for a boolean. *)
Definition of_bool (b : bool) : string := if b then "true"%string else "false"%string.

(** [n.toString(16)] for a non-negative bigint. *)
Definition to_hex (n : Z) : string :=
  HexadecimalString.NilZero.string_of_uint (N.to_hex_uint (Z.to_N n)).

(** The integer a double stands for, when it is one of magnitude at most
    2^53; there the decimal form of the number is that of the integer. *)
Definition safe_integer (x : spec_float) : option Z :=
  match x with
  | S754_zero _ => Some 0
  | S754_finite s m e =>
      let magnitude :=
        if 0 <=? e then Some (Zpos m * 2 ^ e)
        else if Zpos m mod 2 ^ (- e) =? 0 then Some (Zpos m / 2 ^ (- e))
        else None in
      match magnitude with
      | Some n => if n <=? 2 ^ 53 then Some (if s then - n else n) else None
      | None => None
      end
  | _ => None
  end.

Section NumberToString.
(** Number::toString on the finite doubles that are no such integer. *)
Variable Number_toString : spec_float -> string.

(** [String(x)], as in a template literal or a property key. *)
Definition of_number (x : spec_float) : string :=
  match x with
  | S754_nan => "NaN"
  | S754_infinity false => "Infinity"
  | S754_infinity true => "-Infinity"
  | _ =>
      match safe_integer x with
      | Some n =>
          String.append (if n <? 0 then "-"%string else EmptyString) (Js.digits (Z.abs n))
      | None => Number_toString x
      end
  end.
End NumberToString.

End JsText.

Definition truncateAddress (address : string) : string :=
  if Js.truthy address
  then String.append (JsText.slice_first 6 address)
         (String.append "..." (JsText.slice_last 4 address))
  else EmptyString.

(** The object literal [chains] of [getChainName], by property key. *)
Definition chains : gmap string string :=
  <["1" := "Ethereum Mainnet"]>
    (<["10" := "Optimism"]>
       (<["8453" := "Base"]>
          (<["137" := "Polygon"]>
             (<["42161" := "Arbitrum"%string]> ∅)))).

(** [isSending.value = v]; this signal is not traced. *)
Definition set_isSending (v : bool) (w : World) : World :=
  {| sess :=
       {| address := address (sess w); chainId := chainId (sess w);
          isConnected := isConnected (sess w); isConnecting := isConnecting (sess w);
          error := error (sess w); ethBalance := ethBalance (sess w);
          usdcBalance := usdcBalance (sess w); isSending := v;
          showWallet := showWallet (sess w) |};
     localStorage := localStorage w; listeners := listeners w; trace := trace w |}.

(** [showWallet.value = v]; not traced either. *)
Definition set_showWallet (v : bool) (w : World) : World :=
  {| sess :=
       {| address := address (sess w); chainId := chainId (sess w);
          isConnected := isConnected (sess w); isConnecting := isConnecting (sess w);
          error := error (sess w); ethBalance := ethBalance (sess w);
          usdcBalance := usdcBalance (sess w); isSending := isSending (sess w);
          showWallet := v |};
     localStorage := localStorage w; listeners := listeners w; trace := trace w |}.

(** The click handler of the panel header. *)
Definition toggleWallet (w : World) : World :=
  let w1 := set_showWallet (negb (showWallet (sess w))) w in
  {| sess := sess w1;
     localStorage := <["show-wallet" := JsText.of_bool (showWallet (sess w1))]> (localStorage w1);
     listeners := listeners w1; trace := trace w1 |}.

(** A caught value as [sendEthToSelf] inspects it: whether it is an [Error],
    and its message. *)
Record Caught := { instance_of_Error : bool; thrown : JsError }.

(** How the [eth_sendTransaction] request settles. *)
Inductive SendReply :=
| Sent (hash : string)
| Refused (c : Caught).

(** What [sendEthToSelf] asks of the outside besides its signal writes. *)
Inductive SideEffect :=
| SendTransactionRequest (p : Provider) (from to value : string)
| RefreshTimer (milliseconds : Z).

(** [0x${BigInt(1000000000000000).toString(16)}]. *)
Definition self_transfer_value : string :=
  String.append "0x" (JsText.to_hex 1000000000000000).

(** The body of the [try] block: the value it throws if it does, and what it
    asked for. *)
Definition sendEthToSelf_try (W : Ambient) (reply : SendReply) (account : string)
  : option Caught * list SideEffect :=
  let send (p : Provider) :=
    let req := SendTransactionRequest p account account self_transfer_value in
    match reply with
    | Sent _ => (None, [req; RefreshTimer 5000])
    | Refused c => (Some c, [req])
    end in
  match getFrameSDK W ?> wallet ?> ethProvider with
  | Some p => send p
  | None =>
      match W with
      | None =>
          (Some {| instance_of_Error := true;
                   thrown := {| message := Some "window is not defined"%string |} |}, [])
      | Some window =>
          match ethereum window with
          | Some eth => send (handle eth)
          | None =>
              (Some {| instance_of_Error := true;
                       thrown := {| message := Some "No provider found"%string |} |}, [])
          end
      end
  end.

(** [err instanceof Error ? err.message : 'Failed to send ETH']. *)
Definition sendEth_message (c : Caught) : string :=
  if instance_of_Error c then default EmptyString (message (thrown c))
  else "Failed to send ETH"%string.

Definition sendEthToSelf (W : Ambient) (reply : SendReply) (w : World)
  : Outcome unit * World * list SideEffect :=
  let w1 := set_isSending true w in
  let '(caught, effects) := sendEthToSelf_try W reply (address (sess w1)) in
  let w2 :=
    match caught with
    | Some c => snd (assign (WError (sendEth_message c)) w1)
    | None => w1
    end in
  (Val tt, set_isSending false w2, effects).

Section Display.

Variable Number_toString : spec_float -> string.

Definition getChainName (s : Session) : string :=
  let key := JsText.of_number Number_toString (chainId s) in
  Js.or_else (default EmptyString (chains !! key)) (String.append "Chain ID " key).

End Display.

(* ------------------------------------------------------------------ *)
(** ** The first revision of [connectWallet]

    It takes the host provider from the imported SDK object, keeps no
    persisted record and never writes [isConnecting]; its balance refreshes
    look for [frame.ethereum] or [window.ethereum].  In its catch block the
    parameter hides the [error] signal (see [Earlier.connectWallet_catch]). *)

Module FirstRevision.

Section Revision.

Variable Number_toString : spec_float -> string.

Definition fetchEthBalance (W : Ambient) (reply : Settled Z) (account : string) : M unit :=
  try_catch
    (match W with
     | None => throw {| message := Some "window is not defined"%string |}
     | Some window =>
         match frame_or_browser window with
         | None => ret tt
         | Some _ =>
             bind (await (EvGetBalance account) reply) (fun balance =>
             assign (WEthBalance
                       (Js.toFixed Number_toString (Js.div (Js.Number balance) Js.lit_1e18) 4)))
         end
     end)
    (fun _ => ret tt).

Definition fetchUsdcBalance (W : Ambient) (reply : Settled Z) (account : string) : M unit :=
  try_catch
    (match W with
     | None => throw {| message := Some "window is not defined"%string |}
     | Some window =>
         match frame_or_browser window with
         | None => ret tt
         | Some _ =>
             bind (await (EvBalanceOf USDC_CONTRACT account) reply) (fun balance =>
             assign (WUsdcBalance
                       (Js.toFixed Number_toString (Js.div (Js.Number balance) Js.lit_1e6) 2)))
         end
     end)
    (fun _ => ret tt).

(** The provider and the name of the environment it stands for. *)
Definition choose_provider (sdk_ethProvider : option Provider) (W : Ambient)
  : option (Provider * string) :=
  match sdk_ethProvider with
  | Some p => Some (p, "Frame"%string)
  | None =>
      match W ?> ethereum with
      | Some eth => Some (handle eth, "Desktop"%string)
      | None => None
      end
  end.

(** [sdk_ethProvider] is [sdk.wallet.ethProvider] of the imported SDK; the
    reply to [requestAddresses] is [requestAccounts_reply]. *)
Definition connectWallet (sdk_ethProvider : option Provider) (e : Env) : M unit :=
  match choose_provider sdk_ethProvider (win e) with
  | Some (provider, environment) =>
      try_catch
        (bind (request provider eth_requestAccounts (requestAccounts_reply e))
           (fun addresses =>
              match addresses with
              | Some (connectedAddr :: _) =>
                  bind (assign (WAddress connectedAddr)) (fun _ =>
                  bind (assign (WIsConnected true)) (fun _ =>
                  bind (fetchEthBalance (win_eth e) (getBalance_reply e) connectedAddr) (fun _ =>
                  bind (fetchUsdcBalance (win_usdc e) (balanceOf_reply e) connectedAddr) (fun _ =>
                  bind (request provider eth_chainId (chainId_reply e)) (fun chainIdHex =>
                  adopt_chainId chainIdHex)))))
              | _ =>
                  assign (WError
                    (String.append "Could not get address via "
                       (String.append environment ". Ensure wallet is connected properly.")))
              end))
        Earlier.connectWallet_catch
  | None =>
      assign (WError
        "Cannot connect wallet. No provider found. If on desktop, install MetaMask. If in a Farcaster app, ensure it supports wallet connections.")
  end.

End Revision.

End FirstRevision.

(* ------------------------------------------------------------------ *)
(** ** Vocabulary of the further statements *)

(** The interactive authorization request, the one that opens the wallet's
    prompt. *)
Definition is_prompt (ev : Event) : bool :=
  match ev with
  | EvRequest _ eth_requestAccounts => true
  | _ => false
  end.

Definition is_transfer (ev : Event) : bool :=
  match ev with
  | EvTransfer _ _ _ _ _ => true
  | _ => false
  end.

(** Any request sent to a provider. *)
Definition is_request (ev : Event) : bool :=
  match ev with
  | EvRequest _ _ => true
  | _ => false
  end.

(** A read through the chain client. *)
Definition is_chain_read (ev : Event) : bool :=
  match ev with
  | EvGetBalance _ | EvBalanceOf _ _ => true
  | _ => false
  end.

(** The persisted record says: connected, as [a]. *)
Definition record_names (st : gmap string string) (a : string) : Prop :=
  st !! "walletConnected" = Some "true"%string /\ st !! "walletAddress" = Some a.

(** The persisted record is one the mount task acts on: the flag is ['true']
    and the saved address is a non-empty string. *)
Definition usable_record (st : gmap string string) : bool :=
  bool_decide (st !! "walletConnected" = Some "true"%string) &&
  match st !! "walletAddress" with
  | Some saved => Js.truthy saved
  | None => false
  end.

(** The persisted record, when there is one, names the account the session
    is connected to. *)
Definition record_agrees (w : World) : Prop :=
  match localStorage w !! "walletAddress" with
  | Some a =>
      a = address (sess w) /\ isConnected (sess w) = true /\
      localStorage w !! "walletConnected" = Some "true"%string
  | None => localStorage w !! "walletConnected" = None
  end.

(** [m] keeps the property [I] of worlds, however it completes. *)
Definition keeps (I : World -> Prop) {A : Type} (m : M A) : Prop :=
  forall w, I w -> I (snd (m w)).

(** The same world with other subscriptions. *)
Definition with_listeners (ls : gmap nat (list Listener)) (w : World) : World :=
  {| sess := sess w; localStorage := localStorage w; listeners := ls; trace := trace w |}.

(** The empty arrow functions are the only listeners that do nothing. *)
Definition is_empty_listener (l : Listener) : bool :=
  match l with
  | EmptyAccountsChanged | EmptyChainChanged => true
  | _ => false
  end.

(** The decimal form of an integer. *)
Definition decimal_of (n : Z) : string :=
  String.append (if n <? 0 then "-"%string else EmptyString) (Js.digits (Z.abs n)).

(** The networks the widget knows by name. *)
Definition known_chain (n : Z) : option string :=
  if n =? 1 then Some "Ethereum Mainnet"%string
  else if n =? 10 then Some "Optimism"%string
  else if n =? 137 then Some "Polygon"%string
  else if n =? 8453 then Some "Base"%string
  else if n =? 42161 then Some "Arbitrum"%string
  else None.

(** A page load over what the last one left: fresh signals, no
    subscription, the same persisted record. *)
Definition reload (w : World) : World :=
  {| sess := initial_session; localStorage := localStorage w;
     listeners := ∅; trace := [] |}.

(** Account-change events reach the listener in a page, where [window] is
    defined. *)
Definition delivered_in_browser (op : Operation) : Prop :=
  match op with
  | OpAccountsChanged e _ _ => win e <> None
  | _ => True
  end.

(** The session fields no wallet operation is meant to touch on this path:
    everything but [error]. *)
Definition same_but_error (s s' : Session) : Prop :=
  s' = apply_write (WError (error s')) s.

(* ------------------------------------------------------------------ *)
(** ** Further samples *)

Module SampleAction.

(** A rejection value that is a plain object, not an [Error]. *)
Definition plain_rejection : Caught :=
  {| instance_of_Error := false; thrown := Sample.user_rejected |}.

(** A session on Base. *)
Definition on_base : Session := apply_write (WChainId (Js.parseInt16 "0x2105")) initial_session.

(** The wallet rejects its prompt with no value at all, as [reject()] does. *)
Definition rejecting_bare : Env :=
  {| win := Sample.browser; win_eth := Sample.browser; win_usdc := Sample.browser;
     accounts_reply := Fulfilled (Some []);
     requestAccounts_reply := Rejected (Empty Undefined);
     chainId_reply := Fulfilled (Some "0x2105"%string);
     getBalance_reply := Fulfilled 1500000000000000000;
     balanceOf_reply := Fulfilled 1234567;
     transfer_reply := Fulfilled "0x5e1f"%string |}.

(** The wallet grants [0xabc] and then rejects the chain id query with a
    string. *)
Definition chain_rejected_with_text : Env :=
  {| win := Sample.browser; win_eth := Sample.browser; win_usdc := Sample.browser;
     accounts_reply := Fulfilled (Some []);
     requestAccounts_reply := Fulfilled (Some ["0xabc"%string]);
     chainId_reply := Rejected (Primitive "string 'timeout'");
     getBalance_reply := Fulfilled 1500000000000000000;
     balanceOf_reply := Fulfilled 1234567;
     transfer_reply := Fulfilled "0x5e1f"%string |}.


End SampleAction.

(* ------------------------------------------------------------------ *)
(** ** Proof tools *)

Create HintDb js_unfold.
#[local] Hint Unfold connectWallet sendTransaction checkExistingConnection
  initializeSession accountsChangedHandler chainChangedHandler setupEventListeners
  cleanup adopt_account adopt_chainId fetchEthBalance fetchUsdcBalance
  saveConnectionState clearConnectionState Earlier.connectWallet_catch
  caught_message_or caught_message_includes request try_finally try_catch bind ret throw assign await get_session
  get_storage with_storage on log_event : js_unfold.

#[local] Arguments getProvider : simpl never.
#[local] Arguments frame_or_browser : simpl never.
#[local] Arguments message_or : simpl never.
#[local] Arguments message_includes : simpl never.
#[local] Arguments Js.toFixed : simpl never.
#[local] Arguments Js.parseInt16 : simpl never.
#[local] Arguments Js.div : simpl never.
#[local] Arguments Js.Number : simpl never.
#[local] Arguments Js.truthy : simpl never.

(** Reduce projections of explicit sessions and worlds, nothing else. *)
Ltac js_cbn :=
  cbn [fst snd negb andb sess trace localStorage listeners apply_write
       address chainId isConnected isConnecting error ethBalance usdcBalance
       isSending showWallet] in *.

(** Unfold an operation down to its matches on the answers it awaits. *)
Ltac run_op := repeat (progress autounfold with js_unfold); js_cbn.

(** Split on one awaited answer or one ambient lookup. *)
Ltac break_match :=
  match goal with
  | |- context [match ?x with _ => _ end] =>
      lazymatch x with
      | getProvider _ => destruct x eqn:?
      | frame_or_browser _ => destruct x eqn:?
      | win _ => destruct x eqn:?
      | requestAccounts_reply _ => destruct x eqn:?
      | accounts_reply _ => destruct x eqn:?
      | chainId_reply _ => destruct x eqn:?
      | getBalance_reply _ => destruct x eqn:?
      | balanceOf_reply _ => destruct x eqn:?
      | transfer_reply _ => destruct x eqn:?
      | Js.truthy _ => destruct x eqn:?
      | message_includes _ _ => destruct x eqn:?
      | bool_decide _ => destruct x eqn:?
      | @lookup _ _ _ _ _ _ => destruct x eqn:?
      | negb ?b => tryif is_constructor b then fail else destruct b eqn:?
      | _ => is_var x; destruct x
      end
  end.

Ltac run_cases := run_op; repeat (break_match; js_cbn).

(* ------------------------------------------------------------------ *)
(** ** The provider resolver *)

(** Without [window.ethereum] the list read off it is empty. *)
Lemma no_browser_no_list (win : Window) :
  ethereum win = None -> default [] (ethereum win ?> providers) = [].
Proof. intros ->. reflexivity. Qed.

(** C2. Each call of [getProvider] returns, for the ambient context of that
    call alone, the first existing source among the host frame's wallet
    provider, the browser-injected provider and the first entry of the
    multi-provider list, and nothing when none exists.  The function takes no
    other input and keeps no state, so nothing is cached between calls. *)
Theorem getProvider_first_existing_source (w : option Window) :
  getProvider w = resolveProvider_spec w.
Proof.
  unfold getProvider, getProvider_logged, resolveProvider_spec, getFrameSDK,
    host_frame_provider, browser_provider, multi_provider_first.
  destruct w as [[fr eth]|]; [|reflexivity].
  cbn [chain frame ethereum].
  destruct fr as [[[[[[[p|]]|]]|] fe]|]; cbn [chain sdk wallet ethProvider first_found snd];
    try reflexivity.
  all: destruct eth as [[h ps]|]; reflexivity.
Qed.

(** C10. [getProvider] never takes its injected-providers branch: the list
    is a property of the browser provider, hence absent whenever that
    provider is, and the resolver equals one that consults the host frame and
    the browser provider only. *)
Theorem getProvider_injected_branch_dead (w : option Window) :
  fst (getProvider_logged w) <> UsingInjected /\
  (browser_provider w <> None \/ w ?> ethereum ?> providers = None) /\
  getProvider w = resolveProvider_two_sources w.
Proof.
  unfold getProvider, getProvider_logged, resolveProvider_two_sources, getFrameSDK,
    host_frame_provider, browser_provider.
  destruct w as [[fr eth]|]; cbn [chain frame ethereum].
  - destruct eth as [[h ps]|];
      destruct fr as [[[[[[[p|]]|]]|] fe]|];
      cbn [chain sdk wallet ethProvider first_found fst snd handle default
           length bool_decide];
      (split; [discriminate|split; [(left; discriminate) || (right; reflexivity) | reflexivity]]).
  - cbn. split; [discriminate|split; [right; reflexivity|reflexivity]].
Qed.

(* ------------------------------------------------------------------ *)
(** ** The session controller *)

Lemma session_eta (s : Session) :
  {| address := address s; chainId := chainId s; isConnected := isConnected s;
     isConnecting := isConnecting s; error := error s; ethBalance := ethBalance s;
     usdcBalance := usdcBalance s; isSending := isSending s;
     showWallet := showWallet s |} = s.
Proof. destruct s; reflexivity. Qed.

Lemma status_connected (s : Session) :
  connectionStatus s = Connected <-> isConnected s = true.
Proof.
  unfold connectionStatus.
  destruct (isConnected s), (isConnecting s); split; intros H; try reflexivity; discriminate.
Qed.

Lemma status_not_connecting (s : Session) :
  isConnecting s = false -> connectionStatus s <> Connecting.
Proof.
  unfold connectionStatus. intros ->. destruct (isConnected s); discriminate.
Qed.

Lemma truthy_nonempty (a : string) : Js.truthy a = true <-> a <> EmptyString.
Proof.
  destruct a; unfold Js.truthy; split; intros H; try discriminate; try reflexivity.
  now contradiction H.
Qed.


Section Controller.

Variable Number_toString : spec_float -> string.

(** C5. With a provider in sight, a native balance of 1500000000000000000
    wei is stored as "1.5000", and a token balance of 1234567 base units as
    "1.23". *)
Theorem balances_stored_formatted
    (W : option Window) (p : nat) (account : string) (w : World)
    (Hprovider : getProvider W = Some p) :
  ethBalance (sess (snd (fetchEthBalance Number_toString W
                           (Fulfilled 1500000000000000000) account w))) = "1.5000"%string /\
  usdcBalance (sess (snd (fetchUsdcBalance Number_toString W
                            (Fulfilled 1234567) account w))) = "1.23"%string.
Proof.
  unfold fetchEthBalance, fetchUsdcBalance. rewrite Hprovider.
  run_op. split; vm_compute; reflexivity.
Qed.

(** C8. A balance refresh never throws, leaves [error] as it was, and
    changes at most its own balance signal; the persisted record and the
    subscriptions are untouched.  This holds whether or not a provider is
    found and however the chain read settles. *)
Theorem balance_refresh_frame
    (W : option Window) (reply : Settled Z) (account : string) (w : World) :
  let eth := fetchEthBalance Number_toString W reply account w in
  let usdc := fetchUsdcBalance Number_toString W reply account w in
  (fst eth = Val tt /\
   error (sess (snd eth)) = error (sess w) /\
   sess (snd eth) = apply_write (WEthBalance (ethBalance (sess (snd eth)))) (sess w) /\
   localStorage (snd eth) = localStorage w /\
   listeners (snd eth) = listeners w) /\
  (fst usdc = Val tt /\
   error (sess (snd usdc)) = error (sess w) /\
   sess (snd usdc) = apply_write (WUsdcBalance (usdcBalance (sess (snd usdc)))) (sess w) /\
   localStorage (snd usdc) = localStorage w /\
   listeners (snd usdc) = listeners w).
Proof.
  intros eth usdc; subst eth usdc.
  unfold fetchEthBalance, fetchUsdcBalance.
  destruct (getProvider W), reply; run_op;
    repeat split; try reflexivity; symmetry; apply session_eta.
Qed.

(** C1. [connectWallet] always completes with [isConnecting] false.  Along
    the way it first sets the flag, the flag goes from set to cleared exactly
    once, and the last thing it does is the assignment in its [finally]
    block.  This holds on every path, also on the one where the catch block
    itself throws: a request rejected with [undefined] or [null] makes the
    read of [err.message] fail there, and the [finally] block still clears
    the flag before that TypeError leaves the function.  On every other path
    the function returns normally. *)
Theorem connect_clears_connecting (e : Env) (w : World) :
  let r := connectWallet Number_toString e w in
  fst r = completes_after_catch (connect_caught e) /\
  isConnecting (sess (snd r)) = false /\
  connectionStatus (sess (snd r)) <> Connecting /\
  exists t,
    trace (snd r) = trace w ++ t /\
    head t = Some (EvWrite (WIsConnecting true)) /\
    last t = Some (EvWrite (WIsConnecting false)) /\
    falling_edges (isConnecting (sess w)) (connecting_values t) = 1%nat.
Proof.
  intros r; subst r. unfold connect_caught, completes_after_catch. run_cases.
  all: split; [reflexivity|split; [reflexivity|split]].
  all: try (apply status_not_connecting; reflexivity).
  all: eexists; split; [rewrite <- ?app_assoc; cbn [app]; reflexivity|].
  all: cbn; destruct (isConnecting (sess w)); repeat split; reflexivity.
Qed.

(** The explicit assignment on the no-provider path comes on top of the one
    in [finally]: there the flag is assigned false twice, the second time
    without effect. *)
Lemma connect_no_provider_assigns_twice (e : Env) (w : World) :
  getProvider (win e) = None ->
  exists t,
    trace (snd (connectWallet Number_toString e w)) = trace w ++ t /\
    connecting_values t = [true; false; false].
Proof.
  intros Hnone. unfold connectWallet. rewrite Hnone. run_op.
  eexists; split; [rewrite <- ?app_assoc; cbn [app]; reflexivity|reflexivity].
Qed.





(** C7. On a session that is not Connected, [sendTransaction] completes at
    once: its only effect is the assignment of a non-empty message to
    [error]; it sends no request and submits no transfer. *)
Theorem transfer_requires_connection
    (e : Env) (w : World) (Hstatus : connectionStatus (sess w) <> Connected) :
  let r := sendTransaction Number_toString e w in
  let msg := "Please connect your wallet first"%string in
  fst r = Val tt /\
  sess (snd r) = apply_write (WError msg) (sess w) /\
  error (sess (snd r)) = msg /\
  trace (snd r) = trace w ++ [EvWrite (WError msg)] /\
  localStorage (snd r) = localStorage w /\
  listeners (snd r) = listeners w.
Proof.
  intros r msg; subst r msg.
  assert (Hoff : isConnected (sess w) = false).
  { destruct (isConnected (sess w)) eqn:Hc; [|reflexivity].
    contradiction Hstatus. apply status_connected, Hc. }
  unfold sendTransaction, bind, get_session. cbn [fst snd]. rewrite Hoff. cbn [negb].
  run_op. repeat split; reflexivity.
Qed.

End Controller.

(* ------------------------------------------------------------------ *)
(** ** Teardown *)

(** [on] only ever appends: whatever was subscribed stays subscribed. *)
Lemma on_keeps_listeners (p q : nat) (l l' : Listener) (w : World) :
  l ∈ default [] (listeners w !! q) ->
  l ∈ default [] (listeners (snd (on p l' w)) !! q).
Proof.
  intros Hin. unfold on; cbn [snd listeners].
  destruct (decide (p = q)) as [->|Hne].
  - rewrite lookup_insert_eq. cbn. apply elem_of_app. left. exact Hin.
  - rewrite lookup_insert_ne by exact Hne. exact Hin.
Qed.

(** The registered teardown removes no listener and touches no signal. *)
Lemma cleanup_keeps_listeners (W : option Window) (q : nat) (l : Listener) (w : World) :
  l ∈ default [] (listeners w !! q) ->
  l ∈ default [] (listeners (snd (cleanup W w)) !! q) /\
  sess (snd (cleanup W w)) = sess w.
Proof.
  intros Hin. unfold cleanup. destruct (getProvider W) as [p|]; [|split; [exact Hin|reflexivity]].
  unfold bind. cbn [on fst snd].
  split; [|reflexivity].
  apply (on_keeps_listeners p q l EmptyChainChanged (snd (on p EmptyAccountsChanged w))).
  apply on_keeps_listeners. exact Hin.
Qed.

(** C9, evaluated. In a browser whose wallet is provider 7, after the mount
    task subscribed its two listeners and the teardown ran, both are still
    subscribed, next to the two empty ones the teardown added: an
    [accountsChanged] event still makes the session adopt the account, and a
    [chainChanged] event still moves [chainId]. *)
Theorem teardown_leaves_handlers_subscribed :
  listeners Sample.torn_down_world !! 7%nat =
    Some [AccountsChangedHandler; ChainChangedHandler;
          EmptyAccountsChanged; EmptyChainChanged] /\
  address (sess Sample.torn_down_world) = EmptyString /\
  address (sess (snd (emit_accountsChanged Sample.exponent_form Sample.granting 7%nat
                        ["0xdef"%string] Sample.torn_down_world))) = "0xdef"%string /\
  chainId (sess Sample.torn_down_world) = S754_zero false /\
  chainId (sess (snd (emit_chainChanged Sample.exponent_form Sample.granting 7%nat
                        "0x1" Sample.torn_down_world))) = Js.Number 1.
Proof. vm_compute. repeat split; reflexivity. Qed.

(* ------------------------------------------------------------------ *)
(** ** The session invariant *)

Section Invariant.

Variable Number_toString : spec_float -> string.

Lemma flag_matches_address_iff (s : Session) :
  connected_iff_address s <-> flag_matches_address s.
Proof.
  unfold connected_iff_address, flag_matches_address.
  rewrite status_connected. reflexivity.
Qed.

Lemma preserves_ret {A : Type} (a : A) : preserves (ret a).
Proof. intros w H. exact H. Qed.

Lemma preserves_bind {A B : Type} (m : M A) (k : A -> M B) :
  preserves m -> (forall a, preserves (k a)) -> preserves (bind m k).
Proof.
  intros Hm Hk w H. unfold bind.
  specialize (Hm w H). destruct (m w) as [[a|err] w']; cbn [snd] in *.
  - apply Hk, Hm.
  - exact Hm.
Qed.

(** Close one case: the two signals are as before, or both set from a named
    account, or both cleared. *)
Ltac close_case :=
  unfold flag_matches_address in *; js_cbn;
  first
    [ assumption
    | split; [intros _; apply truthy_nonempty; assumption | reflexivity]
    | split; [discriminate | intros Hne; now contradiction Hne] ].

(** Bring the first account of a named reply into the context. *)
Ltac first_named :=
  repeat match goal with
    | H : reply_named ?r, E : ?r = Fulfilled (Some (_ :: _)) |- _ =>
        rewrite E in H; cbn [reply_named] in H
    | H : reply_named (Fulfilled (Some (_ :: _))) |- _ =>
        cbn [reply_named] in H
    | H : accounts_named (_ :: _) |- _ =>
        apply Forall_cons in H; destruct H as [? _]
    end.

Lemma adopt_account_establishes (e : Env) (account : string) (w : World) :
  Js.truthy account = true ->
  flag_matches_address (sess (snd (adopt_account Number_toString e account w))).
Proof. intros Hnamed. run_cases; close_case. Qed.

Lemma checkExistingConnection_preserves (e : Env) :
  reply_named (accounts_reply e) -> preserves (checkExistingConnection Number_toString e).
Proof.
  intros Hnamed w Hinv. unfold checkExistingConnection, try_catch at 1, bind at 1, get_storage.
  cbn [fst snd].
  destruct (win e) as [window|] eqn:Hwin;
    [destruct (bool_decide (localStorage w !! "walletConnected" = Some "true"%string)),
       (localStorage w !! "walletAddress") as [saved|]; [destruct (Js.truthy saved) eqn:?|..]|];
    cbn [andb]; run_cases; first_named; close_case.
Qed.

Lemma connectWallet_preserves (e : Env) :
  reply_named (requestAccounts_reply e) -> preserves (connectWallet Number_toString e).
Proof. intros Hnamed w Hinv. run_cases; first_named; close_case. Qed.

Lemma accountsChangedHandler_preserves (e : Env) (accounts : list string) :
  accounts_named accounts -> preserves (accountsChangedHandler Number_toString e accounts).
Proof.
  intros Hnamed w Hinv. destruct accounts as [|first rest]; run_cases; first_named; close_case.
Qed.

Lemma chainChangedHandler_preserves (e : Env) (chainIdHex : string) :
  preserves (chainChangedHandler Number_toString e chainIdHex).
Proof. intros w Hinv. run_cases; close_case. Qed.

Lemma sendTransaction_preserves (e : Env) : preserves (sendTransaction Number_toString e).
Proof. intros w Hinv. run_cases; close_case. Qed.

Lemma setupEventListeners_preserves (W : option Window) : preserves (setupEventListeners W).
Proof. intros w Hinv. run_cases; close_case. Qed.

Lemma cleanup_preserves (W : option Window) : preserves (cleanup W).
Proof. intros w Hinv. run_cases; close_case. Qed.

Lemma call_accounts_listeners_preserves (e : Env) (accounts : list string) (ls : list Listener) :
  accounts_named accounts ->
  preserves (call_accounts_listeners Number_toString e accounts ls).
Proof.
  intros Hnamed. induction ls as [|l ls IH]; cbn [call_accounts_listeners].
  - apply preserves_ret.
  - apply preserves_bind; [|intros _; exact IH].
    destruct l; try apply preserves_ret.
    apply accountsChangedHandler_preserves, Hnamed.
Qed.

Lemma call_chain_listeners_preserves (e : Env) (chainIdHex : string) (ls : list Listener) :
  preserves (call_chain_listeners Number_toString e chainIdHex ls).
Proof.
  induction ls as [|l ls IH]; cbn [call_chain_listeners].
  - apply preserves_ret.
  - apply preserves_bind; [|intros _; exact IH].
    destruct l; try apply preserves_ret.
    apply chainChangedHandler_preserves.
Qed.

Lemma perform_preserves (op : Operation) :
  receives_named_accounts op -> preserves (perform Number_toString op).
Proof.
  destruct op as [e late|e|e p accounts|e p hex|e|W]; cbn [receives_named_accounts perform];
    intros Hnamed.
  - unfold initializeSession. apply preserves_bind.
    + apply checkExistingConnection_preserves, Hnamed.
    + intros _. apply setupEventListeners_preserves.
  - apply connectWallet_preserves, Hnamed.
  - intros w Hinv. unfold emit_accountsChanged.
    apply call_accounts_listeners_preserves; assumption.
  - intros w Hinv. unfold emit_chainChanged.
    apply call_chain_listeners_preserves; assumption.
  - apply sendTransaction_preserves.
  - apply cleanup_preserves.
Qed.

Lemma perform_all_preserves (ops : list Operation) (w : World) :
  Forall receives_named_accounts ops ->
  flag_matches_address (sess w) ->
  flag_matches_address (sess (perform_all Number_toString ops w)).
Proof.
  revert w. induction ops as [|op ops IH]; intros w Hnamed Hinv; cbn [perform_all].
  - exact Hinv.
  - apply Forall_cons in Hnamed. destruct Hnamed as [Hop Hops].
    apply IH; [exact Hops|]. apply perform_preserves; assumption.
Qed.

(** C6. Starting from the empty session of a page load, after every
    sequence of completed operations (mount, connect, account-change and
    chain-change events, transfers, teardown) in which the account lists the
    provider hands over name accounts, the status is Connected if and only if
    [address] is non-empty. *)
Theorem connected_exactly_with_address
    (ops : list Operation) (Hnamed : Forall receives_named_accounts ops) :
  connected_iff_address (sess (perform_all Number_toString ops initial_world)).
Proof.
  apply flag_matches_address_iff, perform_all_preserves; [exact Hnamed|].
  unfold flag_matches_address. cbn. split; [discriminate|intros H; now contradiction H].
Qed.

End Invariant.

(* ------------------------------------------------------------------ *)
(** ** The earlier catch block *)

(** On a caught object the catch block of the earlier revisions resets
    [address] and [isConnected] but never reaches the [error] signal. *)
Lemma earlier_catch_resets_silently (caught : JsError) (w : World) :
  let r := Earlier.connectWallet_catch caught w in
  address (sess (snd r)) = EmptyString /\
  isConnected (sess (snd r)) = false /\
  error (sess (snd r)) = error (sess w).
Proof. run_op. repeat split; reflexivity. Qed.

(** On anything else its first statement throws, and the session is left as
    it was. *)
Lemma earlier_catch_throws_on_non_object (caught : Reason) (w : World) :
  (forall obj, caught <> Raised obj) ->
  let r := Earlier.connectWallet_catch caught w in
  (exists thrown : JsError, fst r = Thrown thrown) /\ snd r = w.
Proof.
  intros Hnot. destruct caught as [obj|shown|n]; [now contradiction (Hnot obj)|..];
    run_op; (split; [eexists; reflexivity|reflexivity]).
Qed.

(* ------------------------------------------------------------------ *)
(** ** Instances *)


(** The [finally] block at work after a throw: the wallet rejects its prompt
    with no value, the catch block fails on reading the message, and
    [isConnecting] is cleared all the same, as the last thing done; [error]
    stays as cleared on entry. *)
Lemma connect_bare_rejection_clears_connecting :
  let r := connectWallet Sample.exponent_form SampleAction.rejecting_bare initial_world in
  fst r = Thrown (cannot_read Undefined "message") /\
  isConnecting (sess (snd r)) = false /\
  error (sess (snd r)) = EmptyString /\
  last (trace (snd r)) = Some (EvWrite (WIsConnecting false)).
Proof. vm_compute. repeat split; reflexivity. Qed.

Lemma balances_stored_formatted_witness :
  getProvider Sample.browser = Some 7%nat /\
  ethBalance (sess (snd (fetchEthBalance Sample.exponent_form Sample.browser
                           (Fulfilled 1500000000000000000) "0xabc" initial_world)))
    = "1.5000"%string /\
  usdcBalance (sess (snd (fetchUsdcBalance Sample.exponent_form Sample.browser
                            (Fulfilled 1234567) "0xabc" initial_world)))
    = "1.23"%string.
Proof.
  split; [reflexivity|].
  apply (balances_stored_formatted Sample.exponent_form Sample.browser 7%nat
           "0xabc" initial_world).
  reflexivity.
Defined.



Lemma transfer_requires_connection_witness :
  let r := sendTransaction Sample.exponent_form Sample.granting initial_world in
  let msg := "Please connect your wallet first"%string in
  fst r = Val tt /\
  sess (snd r) = apply_write (WError msg) (sess initial_world) /\
  error (sess (snd r)) = msg /\
  trace (snd r) = trace initial_world ++ [EvWrite (WError msg)] /\
  localStorage (snd r) = localStorage initial_world /\
  listeners (snd r) = listeners initial_world.
Proof.
  apply (transfer_requires_connection Sample.exponent_form Sample.granting initial_world).
  discriminate.
Defined.

Lemma connected_exactly_with_address_witness :
  connected_iff_address
    (sess (perform_all Sample.exponent_form
             [OpInitializeSession Sample.granting Sample.browser;
              OpConnect Sample.granting;
              OpChainChanged Sample.granting 7%nat "0x1";
              OpSendTransfer Sample.granting;
              OpAccountsChanged Sample.granting 7%nat [];
              OpTeardown Sample.browser]
             initial_world)).
Proof.
  apply (connected_exactly_with_address Sample.exponent_form).
  repeat constructor.
Defined.

(* ------------------------------------------------------------------ *)
(** ** The mount task, path by path *)

(** No ambient context without [window] yields a provider. *)
Lemma getProvider_needs_window : getProvider None = None.
Proof. reflexivity. Qed.

(** Discard the cases in which a provider was found without a [window]. *)
Ltac no_window :=
  match goal with
  | H : getProvider None = Some _ |- _ => rewrite getProvider_needs_window in H; discriminate H
  end.

(** Split on both sides of a conjunction that guards a branch. *)
Ltac break_and :=
  match goal with
  | |- context [if (?a && ?b)%bool then _ else _] =>
      destruct a eqn:?; [destruct b eqn:?|]; cbn [andb]
  end.

Ltac run_all_cases := run_op; repeat (first [break_match | break_and]; js_cbn).

(** Split conjunctions, and nothing else. *)
Ltac conjs := repeat match goal with |- _ /\ _ => split end.

(** Put the appended events into the shape [trace w ++ t]. *)
Ltac flat_trace := rewrite <- ?app_assoc; cbn [app].

Section Mount.

Variable Number_toString : spec_float -> string.

(** Without a provider the connection check reports it and does nothing
    else: no request leaves the page. *)
Theorem mount_without_provider (e : Env) (w : World)
    (Hnone : getProvider (win e) = None) :
  let r := checkExistingConnection Number_toString e w in
  let msg :=
    "No wallet provider found. Please install MetaMask or use a Farcaster app."%string in
  fst r = Val tt /\
  sess (snd r) = apply_write (WError msg) (sess w) /\
  trace (snd r) = trace w ++ [EvWrite (WError msg)] /\
  localStorage (snd r) = localStorage w.
Proof.
  intros r msg; subst r msg. run_op. rewrite Hnone. js_cbn.
  repeat (break_match; js_cbn); repeat split; reflexivity.
Qed.

(** When the wallet already lists accounts, the connection check adopts the
    first one and persists it, without opening the wallet's prompt. *)
Theorem mount_adopts_authorized_account
    (e : Env) (w : World) (p : nat) (first : string) (others : list string)
    (Hprovider : getProvider (win e) = Some p)
    (Haccounts : accounts_reply e = Fulfilled (Some (first :: others))) :
  let r := checkExistingConnection Number_toString e w in
  fst r = Val tt /\
  address (sess (snd r)) = first /\
  isConnected (sess (snd r)) = true /\
  record_names (localStorage (snd r)) first /\
  exists t, trace (snd r) = trace w ++ t /\ existsb is_prompt t = false.
Proof.
  intros r; subst r. run_op. rewrite Hprovider, Haccounts. js_cbn.
  destruct (win e) as [window|] eqn:Hwin;
    [|rewrite getProvider_needs_window in Hprovider; discriminate].
  repeat (break_match; js_cbn).
  all: unfold record_names; js_cbn.
  all: conjs; try reflexivity.
  all: try (rewrite lookup_insert_ne by discriminate; apply lookup_insert_eq).
  all: try apply lookup_insert_eq.
  all: eexists; split; [flat_trace; reflexivity|reflexivity].
Qed.

(** The check when nothing tells it to prompt. *)
Lemma silent_account_query
    (e : Env) (w : World) (p : nat) (reply : option (list string))
    (Hprovider : getProvider (win e) = Some p)
    (Haccounts : accounts_reply e = Fulfilled reply)
    (Hempty : reply = None \/ reply = Some [])
    (Hrecord : usable_record (localStorage w) = false) :
  checkExistingConnection Number_toString e w =
    (Val tt, log_event (EvRequest p eth_accounts) w).
Proof.
  unfold usable_record in Hrecord.
  run_op. rewrite Hprovider, Haccounts. js_cbn.
  destruct (win e) as [window|] eqn:Hwin; [|rewrite getProvider_needs_window in Hprovider; discriminate].
  destruct (bool_decide (localStorage w !! "walletConnected" = Some "true"%string));
    destruct (localStorage w !! "walletAddress") as [saved|];
    cbn [andb] in Hrecord; try rewrite Hrecord; try discriminate;
    destruct Hempty as [->| ->]; reflexivity.
Qed.

(** A visitor without a usable persisted record whose wallet lists no
    account is left alone: one silent account query, no prompt, no write. *)
Theorem mount_first_visit_silent
    (e : Env) (w : World) (p : nat) (reply : option (list string))
    (Hprovider : getProvider (win e) = Some p)
    (Haccounts : accounts_reply e = Fulfilled reply)
    (Hempty : reply = None \/ reply = Some [])
    (Hrecord : usable_record (localStorage w) = false) :
  checkExistingConnection Number_toString e w =
    (Val tt, log_event (EvRequest p eth_accounts) w).
Proof. exact (silent_account_query e w p reply Hprovider Haccounts Hempty Hrecord). Qed.

(** With a usable record and no listed account, the check prompts; when the
    prompt is rejected it reports the failure and removes the record, and the
    session stays as disconnected or connected as it was. *)
Theorem mount_reconnect_rejected
    (e : Env) (w : World) (p : nat) (reply : option (list string)) (err : JsError)
    (Hprovider : getProvider (win e) = Some p)
    (Haccounts : accounts_reply e = Fulfilled reply)
    (Hempty : reply = None \/ reply = Some [])
    (Hrecord : usable_record (localStorage w) = true)
    (Hrejected : requestAccounts_reply e = Rejected err) :
  let r := checkExistingConnection Number_toString e w in
  fst r = Val tt /\
  sess (snd r) =
    apply_write (WError "Failed to reconnect to wallet. Please try connecting again.")
      (sess w) /\
  record_cleared (localStorage (snd r)) /\
  trace (snd r) =
    trace w ++ [EvRequest p eth_accounts; EvRequest p eth_requestAccounts;
                EvWrite (WError "Failed to reconnect to wallet. Please try connecting again.")].
Proof.
  intros r; subst r. unfold usable_record in Hrecord.
  run_op. rewrite Hprovider, Haccounts, Hrejected. js_cbn.
  destruct (win e) as [window|] eqn:Hwin; [|rewrite getProvider_needs_window in Hprovider; discriminate].
  destruct (bool_decide (localStorage w !! "walletConnected" = Some "true"%string));
    destruct (localStorage w !! "walletAddress") as [saved|];
    cbn [andb] in Hrecord; try discriminate.
  rewrite Hrecord.
  destruct Hempty as [->| ->]; js_cbn; unfold record_cleared; js_cbn.
  all: repeat split; try reflexivity; try (flat_trace; reflexivity).
  all: try (rewrite lookup_delete_ne by discriminate); apply lookup_delete_eq.
Qed.

(** The check when the record makes it prompt and the prompt is granted. *)
Lemma reconnect_adopts_saved
    (e : Env) (w : World) (p : nat) (reply granted : option (list string)) (saved : string)
    (Hprovider : getProvider (win e) = Some p)
    (Haccounts : accounts_reply e = Fulfilled reply)
    (Hempty : reply = None \/ reply = Some [])
    (Hflag : localStorage w !! "walletConnected" = Some "true"%string)
    (Hsaved : localStorage w !! "walletAddress" = Some saved)
    (Hnonempty : saved <> EmptyString)
    (Hgranted : requestAccounts_reply e = Fulfilled granted) :
  let r := checkExistingConnection Number_toString e w in
  fst r = Val tt /\
  address (sess (snd r)) = saved /\
  isConnected (sess (snd r)) = true /\
  error (sess (snd r)) = error (sess w) /\
  record_names (localStorage (snd r)) saved.
Proof.
  intros r; subst r. apply truthy_nonempty in Hnonempty.
  run_op. rewrite Hprovider, Haccounts, Hgranted, Hflag, Hsaved. js_cbn.
  destruct (win e) as [window|] eqn:Hwin; [|rewrite getProvider_needs_window in Hprovider; discriminate].
  rewrite bool_decide_eq_true_2 by reflexivity. cbn [andb]. rewrite Hnonempty.
  destruct Hempty as [->| ->]; js_cbn.
  all: repeat (break_match; js_cbn); unfold record_names; js_cbn.
  all: repeat split; try reflexivity.
  all: try (rewrite lookup_insert_ne by discriminate; apply lookup_insert_eq).
  all: apply lookup_insert_eq.
Qed.

(** When that prompt is granted, the check adopts the saved address and
    persists it again, whichever accounts the wallet granted. *)
Theorem mount_reconnect_adopts_saved
    (e : Env) (w : World) (p : nat) (reply granted : option (list string)) (saved : string)
    (Hprovider : getProvider (win e) = Some p)
    (Haccounts : accounts_reply e = Fulfilled reply)
    (Hempty : reply = None \/ reply = Some [])
    (Hflag : localStorage w !! "walletConnected" = Some "true"%string)
    (Hsaved : localStorage w !! "walletAddress" = Some saved)
    (Hnonempty : saved <> EmptyString)
    (Hgranted : requestAccounts_reply e = Fulfilled granted) :
  let r := checkExistingConnection Number_toString e w in
  fst r = Val tt /\
  address (sess (snd r)) = saved /\
  isConnected (sess (snd r)) = true /\
  error (sess (snd r)) = error (sess w) /\
  record_names (localStorage (snd r)) saved.
Proof.
  exact (reconnect_adopts_saved e w p reply granted saved
           Hprovider Haccounts Hempty Hflag Hsaved Hnonempty Hgranted).
Qed.

(** The mount task never throws, whatever it is answered, and never touches
    [isConnecting]. *)
Theorem mount_completes (e : Env) (late : option Window) (w : World) :
  let r := initializeSession Number_toString e late w in
  fst r = Val tt /\ isConnecting (sess (snd r)) = isConnecting (sess w).
Proof.
  intros r; subst r. run_all_cases; split; reflexivity.
Qed.

End Mount.

(* ------------------------------------------------------------------ *)
(** ** Connecting, events and transfers, path by path *)

Section Paths.

Variable Number_toString : spec_float -> string.

(** A granted authorization makes [connectWallet] adopt the first account
    and persist it.  The session stays connected even when the chain id query
    that follows is rejected; only then can [error] be left non-empty, with
    what the catch block makes of the rejection value: its message, or the
    fixed text when it has none, or still nothing when the value is
    [undefined] or [null] and the read of its message throws. *)
Theorem connect_adopts_first_account
    (e : Env) (w : World) (p : nat) (first : string) (others : list string)
    (Hprovider : getProvider (win e) = Some p)
    (Hgranted : requestAccounts_reply e = Fulfilled (Some (first :: others))) :
  let r := connectWallet Number_toString e w in
  address (sess (snd r)) = first /\
  isConnected (sess (snd r)) = true /\
  isConnecting (sess (snd r)) = false /\
  record_names (localStorage (snd r)) first /\
  error (sess (snd r)) =
    match chainId_reply e with
    | Fulfilled _ => EmptyString
    | Rejected reason =>
        error_after_catch "" reason "Failed to connect wallet. Please try again."
    end.
Proof.
  intros r; subst r. unfold error_after_catch. run_op. rewrite Hprovider, Hgranted. js_cbn.
  destruct (win e) as [window|] eqn:Hwin;
    [|rewrite getProvider_needs_window in Hprovider; discriminate].
  repeat (break_match; js_cbn).
  all: unfold record_names; js_cbn.
  all: repeat split; try reflexivity.
  all: try (rewrite lookup_insert_ne by discriminate; apply lookup_insert_eq).
  all: apply lookup_insert_eq.
Qed.

(** An authorization that yields no account only reports it: apart from
    [error] and the cleared [isConnecting], nothing changes. *)
Theorem connect_without_accounts
    (e : Env) (w : World) (p : nat) (reply : option (list string))
    (Hprovider : getProvider (win e) = Some p)
    (Hreply : requestAccounts_reply e = Fulfilled reply)
    (Hempty : reply = None \/ reply = Some []) :
  let r := connectWallet Number_toString e w in
  let msg := "No accounts found. Please try again."%string in
  fst r = Val tt /\
  sess (snd r) = apply_write (WIsConnecting false) (apply_write (WError msg) (sess w)) /\
  localStorage (snd r) = localStorage w /\
  trace (snd r) =
    trace w ++ [EvWrite (WIsConnecting true); EvWrite (WError "");
                EvRequest p eth_requestAccounts; EvWrite (WError msg);
                EvWrite (WIsConnecting false)].
Proof.
  intros r msg; subst r msg. run_op. rewrite Hprovider, Hreply. js_cbn.
  destruct Hempty as [->| ->]; js_cbn; repeat split; try reflexivity;
    flat_trace; reflexivity.
Qed.

(** A non-empty account list makes the listener adopt and persist its first
    entry; it sends nothing to the provider and leaves [error] and [chainId]
    alone. *)
Theorem account_change_adopts_first
    (e : Env) (w : World) (first : string) (others : list string)
    (Hbrowser : win e <> None) :
  let r := accountsChangedHandler Number_toString e (first :: others) w in
  fst r = Val tt /\
  address (sess (snd r)) = first /\
  isConnected (sess (snd r)) = true /\
  error (sess (snd r)) = error (sess w) /\
  chainId (sess (snd r)) = chainId (sess w) /\
  record_names (localStorage (snd r)) first /\
  exists t, trace (snd r) = trace w ++ t /\ existsb is_request t = false.
Proof.
  intros r; subst r. run_op.
  destruct (win e) as [window|] eqn:Hwin; [|congruence].
  repeat (break_match; js_cbn).
  all: unfold record_names; js_cbn.
  all: conjs; try reflexivity.
  all: try (rewrite lookup_insert_ne by discriminate; apply lookup_insert_eq).
  all: try apply lookup_insert_eq.
  all: eexists; split; [flat_trace; reflexivity|reflexivity].
Qed.

(** The chain-change listener stores what [parseInt] makes of the payload
    and may refresh the balances; it never throws, sends nothing to the
    provider, and leaves connection state, [error] and the persisted record
    alone. *)
Theorem chain_change_frame (e : Env) (chainIdHex : string) (w : World) :
  let r := chainChangedHandler Number_toString e chainIdHex w in
  fst r = Val tt /\
  chainId (sess (snd r)) = Js.parseInt16 chainIdHex /\
  address (sess (snd r)) = address (sess w) /\
  isConnected (sess (snd r)) = isConnected (sess w) /\
  isConnecting (sess (snd r)) = isConnecting (sess w) /\
  error (sess (snd r)) = error (sess w) /\
  localStorage (snd r) = localStorage w /\
  exists t, trace (snd r) = trace w ++ t /\ existsb is_request t = false.
Proof.
  intros r; subst r. run_cases.
  all: conjs; try reflexivity.
  all: eexists; split; [flat_trace; reflexivity|reflexivity].
Qed.

(** While no account is connected a chain change only moves [chainId]: no
    balance is read. *)
Theorem chain_change_without_account
    (e : Env) (chainIdHex : string) (w : World)
    (Hnone : address (sess w) = EmptyString) :
  chainChangedHandler Number_toString e chainIdHex w =
    (Val tt,
     {| sess := apply_write (WChainId (Js.parseInt16 chainIdHex)) (sess w);
        localStorage := localStorage w; listeners := listeners w;
        trace := trace w ++ [EvWrite (WChainId (Js.parseInt16 chainIdHex))] |}).
Proof. run_op. rewrite Hnone. reflexivity. Qed.

(** [sendTransaction] writes [error] and [usdcBalance] at most: account,
    connection flags, chain, native balance, persisted record and
    subscriptions stay.  It submits at most one transfer, of 10000 base units
    of the token from the connected address to itself.  On a session that is
    not connected it returns at once.  Otherwise it throws in two cases:
    where [window] is undefined, and where its outer catch block receives
    [undefined] or [null] and fails to read the message. *)
Theorem transfer_frame (e : Env) (w : World) :
  let r := sendTransaction Number_toString e w in
  fst r =
    (if isConnected (sess w) then
       match win e with
       | None => Thrown {| message := Some "window is not defined"%string |}
       | Some window =>
           match frame_or_browser window with
           | None => Val tt
           | Some _ => completes_after_catch (transfer_caught e)
           end
       end
     else Val tt) /\
  address (sess (snd r)) = address (sess w) /\
  isConnected (sess (snd r)) = isConnected (sess w) /\
  isConnecting (sess (snd r)) = isConnecting (sess w) /\
  chainId (sess (snd r)) = chainId (sess w) /\
  ethBalance (sess (snd r)) = ethBalance (sess w) /\
  localStorage (snd r) = localStorage w /\
  listeners (snd r) = listeners w /\
  exists t, trace (snd r) = trace w ++ t /\
    (filter is_transfer t = [] \/
     exists p, filter is_transfer t =
       [EvTransfer p USDC_CONTRACT (address (sess w)) 10000 (address (sess w))]).
Proof.
  intros r; subst r. unfold transfer_caught, completes_after_catch. run_cases.
  all: conjs; try reflexivity; try congruence.
  all: eexists; split; [first [flat_trace; reflexivity | symmetry; apply app_nil_r]|].
  all: cbn; first [left; reflexivity | right; eexists; reflexivity].
Qed.

(** When the wallet already lists an account, [sendTransaction] goes
    straight to the transfer: the wallet's authorization prompt is not
    opened. *)
Theorem transfer_skips_prompt_when_authorized
    (e : Env) (w : World) (window : Window) (p : nat)
    (account : string) (others : list string)
    (Hconnected : isConnected (sess w) = true)
    (Hwindow : win e = Some window)
    (Hprovider : frame_or_browser window = Some p)
    (Haccounts : accounts_reply e = Fulfilled (Some (account :: others))) :
  exists t, trace (snd (sendTransaction Number_toString e w)) = trace w ++ t /\
    existsb is_prompt t = false /\
    filter is_transfer t =
      [EvTransfer p USDC_CONTRACT (address (sess w)) 10000 (address (sess w))].
Proof.
  run_op. rewrite Hconnected. js_cbn. rewrite Hwindow, Hprovider, Haccounts. js_cbn.
  repeat (break_match; js_cbn).
  all: eexists; split; [flat_trace; reflexivity|split; reflexivity].
Qed.

(** When it does have to prompt and the prompt is rejected, it asks the user
    to approve the connection and submits nothing. *)
Theorem transfer_prompt_rejected
    (e : Env) (w : World) (window : Window) (p : nat)
    (reply : option (list string)) (err : JsError)
    (Hconnected : isConnected (sess w) = true)
    (Hwindow : win e = Some window)
    (Hprovider : frame_or_browser window = Some p)
    (Haccounts : accounts_reply e = Fulfilled reply)
    (Hempty : reply = None \/ reply = Some [])
    (Hrejected : requestAccounts_reply e = Rejected err) :
  let r := sendTransaction Number_toString e w in
  let msg := "Please approve the wallet connection request"%string in
  fst r = Val tt /\
  sess (snd r) = apply_write (WError msg) (sess w) /\
  trace (snd r) =
    trace w ++ [EvRequest p eth_accounts; EvRequest p eth_requestAccounts;
                EvWrite (WError msg)].
Proof.
  intros r msg; subst r msg.
  run_op. rewrite Hconnected. js_cbn. rewrite Hwindow, Hprovider, Haccounts, Hrejected.
  destruct Hempty as [->| ->]; js_cbn; rewrite <- Hconnected; conjs; try reflexivity;
    flat_trace; reflexivity.
Qed.

(** A rejected transfer is classified by its message: one that contains
    "authorized" becomes a request to approve, any other is shown as it is,
    and a missing one becomes a fixed text.  No balance is refreshed. *)
Theorem transfer_error_classified
    (e : Env) (w : World) (window : Window) (p : nat)
    (account : string) (others : list string) (err : JsError)
    (Hconnected : isConnected (sess w) = true)
    (Hwindow : win e = Some window)
    (Hprovider : frame_or_browser window = Some p)
    (Haccounts : accounts_reply e = Fulfilled (Some (account :: others)))
    (Hrejected : transfer_reply e = Rejected err) :
  let r := sendTransaction Number_toString e w in
  fst r = Val tt /\
  error (sess (snd r)) =
    (if message_includes err "authorized"
     then "Please approve the transaction in your wallet"%string
     else message_or err "Failed to send transaction") /\
  same_but_error (sess w) (sess (snd r)).
Proof.
  intros r; subst r.
  run_op. rewrite Hconnected. js_cbn. rewrite Hwindow, Hprovider, Haccounts, Hrejected.
  js_cbn. unfold same_but_error.
  destruct (message_includes err "authorized"); js_cbn; rewrite <- Hconnected;
    conjs; reflexivity.
Qed.

(** The two resolvers disagree inside a host frame that exposes its wallet
    only through the SDK: [getProvider] finds it, so the session can connect,
    but [sendTransaction] looks at [frame.ethereum] and [window.ethereum]
    only and reports that there is no provider. *)
Theorem transfer_ignores_sdk_provider
    (e : Env) (w : World) (window : Window) (p : nat)
    (Hconnected : isConnected (sess w) = true)
    (Hwindow : win e = Some window)
    (Hsdk : getProvider (win e) = Some p)
    (Hno_frame : frame window ?> frame_ethereum = None)
    (Hno_browser : ethereum window = None) :
  sendTransaction Number_toString e w =
    (Val tt,
     {| sess := apply_write (WError "No Ethereum provider found") (sess w);
        localStorage := localStorage w; listeners := listeners w;
        trace := trace w ++ [EvWrite (WError "No Ethereum provider found")] |}).
Proof.
  run_op. rewrite Hconnected. js_cbn. rewrite Hwindow.
  unfold frame_or_browser. rewrite Hno_frame, Hno_browser. cbn [chain].
  rewrite <- Hconnected. reflexivity.
Qed.

End Paths.

(* ------------------------------------------------------------------ *)
(** ** Events after the teardown *)

Section AfterTeardown.

Variable Number_toString : spec_float -> string.

(** The listeners neither read nor change the subscriptions. *)
Lemma accountsChangedHandler_with_listeners
    (e : Env) (accounts : list string) (ls : gmap nat (list Listener)) (w : World) :
  accountsChangedHandler Number_toString e accounts (with_listeners ls w) =
    (Val tt, with_listeners ls (snd (accountsChangedHandler Number_toString e accounts w))).
Proof. unfold with_listeners. destruct accounts; run_cases; reflexivity. Qed.

Lemma chainChangedHandler_with_listeners
    (e : Env) (chainIdHex : string) (ls : gmap nat (list Listener)) (w : World) :
  chainChangedHandler Number_toString e chainIdHex (with_listeners ls w) =
    (Val tt, with_listeners ls (snd (chainChangedHandler Number_toString e chainIdHex w))).
Proof. unfold with_listeners. run_cases; reflexivity. Qed.

Lemma accountsChangedHandler_completes (e : Env) (accounts : list string) (w : World) :
  fst (accountsChangedHandler Number_toString e accounts w) = Val tt.
Proof. destruct accounts; run_cases; reflexivity. Qed.

Lemma chainChangedHandler_completes (e : Env) (chainIdHex : string) (w : World) :
  fst (chainChangedHandler Number_toString e chainIdHex w) = Val tt.
Proof. run_cases; reflexivity. Qed.

Lemma with_listeners_same (w : World) : with_listeners (listeners w) w = w.
Proof. destruct w; reflexivity. Qed.

Lemma call_accounts_listeners_with_listeners
    (e : Env) (accounts : list string) (l extra : list Listener)
    (ls : gmap nat (list Listener)) (w : World) :
  forallb is_empty_listener extra = true ->
  call_accounts_listeners Number_toString e accounts (l ++ extra) (with_listeners ls w) =
    (Val tt,
     with_listeners ls (snd (call_accounts_listeners Number_toString e accounts l w))).
Proof.
  intros Hextra. revert w. induction l as [|x l IH]; intros w; cbn [app].
  - induction extra as [|x extra IHx]; [reflexivity|].
    cbn [forallb] in Hextra. apply andb_true_iff in Hextra. destruct Hextra as [Hx Hrest].
    cbn [call_accounts_listeners]. unfold bind.
    destruct x; try discriminate Hx; cbn [ret]; apply IHx, Hrest.
  - cbn [call_accounts_listeners]. unfold bind.
    destruct x; cbn [ret]; try apply IH.
    rewrite accountsChangedHandler_with_listeners. rewrite IH.
    pose proof (accountsChangedHandler_completes e accounts w) as Hval.
    destruct (accountsChangedHandler Number_toString e accounts w) as [o w1].
    cbn [fst snd] in *. subst o. reflexivity.
Qed.

Lemma call_chain_listeners_with_listeners
    (e : Env) (chainIdHex : string) (l extra : list Listener)
    (ls : gmap nat (list Listener)) (w : World) :
  forallb is_empty_listener extra = true ->
  call_chain_listeners Number_toString e chainIdHex (l ++ extra) (with_listeners ls w) =
    (Val tt,
     with_listeners ls (snd (call_chain_listeners Number_toString e chainIdHex l w))).
Proof.
  intros Hextra. revert w. induction l as [|x l IH]; intros w; cbn [app].
  - induction extra as [|x extra IHx]; [reflexivity|].
    cbn [forallb] in Hextra. apply andb_true_iff in Hextra. destruct Hextra as [Hx Hrest].
    cbn [call_chain_listeners]. unfold bind.
    destruct x; try discriminate Hx; cbn [ret]; apply IHx, Hrest.
  - cbn [call_chain_listeners]. unfold bind.
    destruct x; cbn [ret]; try apply IH.
    rewrite chainChangedHandler_with_listeners. rewrite IH.
    pose proof (chainChangedHandler_completes e chainIdHex w) as Hval.
    destruct (chainChangedHandler Number_toString e chainIdHex w) as [o w1].
    cbn [fst snd] in *. subst o. reflexivity.
Qed.

(** What the teardown does to the world: it appends empty listeners to the
    subscriptions of one provider at most. *)
Lemma cleanup_appends_empty (W : option Window) (w : World) (q : nat) :
  exists ls extra,
    snd (cleanup W w) = with_listeners ls w /\
    default [] (ls !! q) = default [] (listeners w !! q) ++ extra /\
    forallb is_empty_listener extra = true.
Proof.
  unfold cleanup. destruct (getProvider W) as [p|].
  - unfold bind, on, with_listeners; cbn [fst snd sess localStorage listeners trace].
    eexists. destruct (decide (p = q)) as [->|Hne].
    + exists [EmptyAccountsChanged; EmptyChainChanged].
      split; [reflexivity|]. split; [|reflexivity].
      rewrite !lookup_insert_eq. cbn. rewrite <- app_assoc. reflexivity.
    + exists []. split; [reflexivity|]. split; [|reflexivity].
      rewrite !lookup_insert_ne by exact Hne. rewrite app_nil_r. reflexivity.
  - exists (listeners w), []. cbn [ret snd]. rewrite with_listeners_same, app_nil_r.
    repeat split; reflexivity.
Qed.

(** The teardown makes no difference to what an event does afterwards: for
    every provider and payload, the session, the persisted record and the
    calls made are those the same event would have caused without it. *)
Theorem events_after_teardown_as_before
    (W : option Window) (e : Env) (p : nat)
    (accounts : list string) (chainIdHex : string) (w : World) :
  let torn := snd (cleanup W w) in
  let a := emit_accountsChanged Number_toString e p accounts in
  let c := emit_chainChanged Number_toString e p chainIdHex in
  (sess (snd (a torn)) = sess (snd (a w)) /\
   localStorage (snd (a torn)) = localStorage (snd (a w)) /\
   trace (snd (a torn)) = trace (snd (a w))) /\
  (sess (snd (c torn)) = sess (snd (c w)) /\
   localStorage (snd (c torn)) = localStorage (snd (c w)) /\
   trace (snd (c torn)) = trace (snd (c w))).
Proof.
  intros torn a c; subst torn a c.
  destruct (cleanup_appends_empty W w p) as (ls & extra & -> & Hls & Hextra).
  unfold emit_accountsChanged, emit_chainChanged.
  cbn [with_listeners listeners]. rewrite Hls.
  rewrite call_accounts_listeners_with_listeners by exact Hextra.
  rewrite call_chain_listeners_with_listeners by exact Hextra.
  cbn [snd with_listeners sess localStorage trace].
  repeat split; reflexivity.
Qed.

End AfterTeardown.

(* ------------------------------------------------------------------ *)
(** ** The persisted record *)

Section PersistedRecord.

Variable Number_toString : spec_float -> string.

Lemma keeps_ret (I : World -> Prop) {A : Type} (a : A) : keeps I (ret a).
Proof. intros w H. exact H. Qed.

Lemma keeps_bind (I : World -> Prop) {A B : Type} (m : M A) (k : A -> M B) :
  keeps I m -> (forall a, keeps I (k a)) -> keeps I (bind m k).
Proof.
  intros Hm Hk w H. unfold bind.
  specialize (Hm w H). destruct (m w) as [[a|err] w']; cbn [snd] in *.
  - apply Hk, Hm.
  - exact Hm.
Qed.

(** Close one case: the record and the two signals are as before, or the
    record was just written from them, or it was just removed. *)
Ltac record_case :=
  try no_window;
  unfold record_agrees in *; js_cbn;
  first
    [ assumption
    | rewrite lookup_insert_eq;
      rewrite lookup_insert_ne by discriminate; rewrite lookup_insert_eq;
      repeat split; reflexivity
    | rewrite lookup_delete_eq;
      rewrite lookup_delete_ne by discriminate; apply lookup_delete_eq ].

Lemma checkExistingConnection_keeps_record (e : Env) :
  keeps record_agrees (checkExistingConnection Number_toString e).
Proof. intros w Hinv. run_all_cases; record_case. Qed.

Lemma connectWallet_keeps_record (e : Env) :
  keeps record_agrees (connectWallet Number_toString e).
Proof. intros w Hinv. run_cases; record_case. Qed.

Lemma accountsChangedHandler_keeps_record (e : Env) (accounts : list string) :
  win e <> None ->
  keeps record_agrees (accountsChangedHandler Number_toString e accounts).
Proof.
  intros Hbrowser w Hinv. destruct accounts as [|first rest]; run_op;
    (destruct (win e) as [window|] eqn:Hwin; [|congruence]);
    repeat (break_match; js_cbn); record_case.
Qed.

Lemma chainChangedHandler_keeps_record (e : Env) (chainIdHex : string) :
  keeps record_agrees (chainChangedHandler Number_toString e chainIdHex).
Proof. intros w Hinv. run_cases; record_case. Qed.

Lemma sendTransaction_keeps_record (e : Env) :
  keeps record_agrees (sendTransaction Number_toString e).
Proof. intros w Hinv. run_cases; record_case. Qed.

Lemma setupEventListeners_keeps_record (W : option Window) :
  keeps record_agrees (setupEventListeners W).
Proof. intros w Hinv. run_cases; record_case. Qed.

Lemma cleanup_keeps_record (W : option Window) : keeps record_agrees (cleanup W).
Proof. intros w Hinv. run_cases; record_case. Qed.

Lemma call_accounts_listeners_keeps_record
    (e : Env) (accounts : list string) (ls : list Listener) :
  win e <> None ->
  keeps record_agrees (call_accounts_listeners Number_toString e accounts ls).
Proof.
  intros Hbrowser. induction ls as [|l ls IH]; cbn [call_accounts_listeners].
  - apply keeps_ret.
  - apply keeps_bind; [|intros _; exact IH].
    destruct l; try apply keeps_ret.
    apply accountsChangedHandler_keeps_record, Hbrowser.
Qed.

Lemma call_chain_listeners_keeps_record
    (e : Env) (chainIdHex : string) (ls : list Listener) :
  keeps record_agrees (call_chain_listeners Number_toString e chainIdHex ls).
Proof.
  induction ls as [|l ls IH]; cbn [call_chain_listeners].
  - apply keeps_ret.
  - apply keeps_bind; [|intros _; exact IH].
    destruct l; try apply keeps_ret.
    apply chainChangedHandler_keeps_record.
Qed.

Lemma perform_keeps_record (op : Operation) :
  delivered_in_browser op -> keeps record_agrees (perform Number_toString op).
Proof.
  destruct op as [e late|e|e p accounts|e p hex|e|W]; cbn [delivered_in_browser perform];
    intros Hbrowser.
  - unfold initializeSession. apply keeps_bind.
    + apply checkExistingConnection_keeps_record.
    + intros _. apply setupEventListeners_keeps_record.
  - apply connectWallet_keeps_record.
  - intros w Hinv. unfold emit_accountsChanged.
    apply call_accounts_listeners_keeps_record; assumption.
  - intros w Hinv. unfold emit_chainChanged.
    apply call_chain_listeners_keeps_record; assumption.
  - apply sendTransaction_keeps_record.
  - apply cleanup_keeps_record.
Qed.

(** Once the persisted record agrees with the session (it names the
    connected account, or is absent), it agrees after every further sequence
    of operations: the record is written only from the account just adopted
    and removed whenever the session drops it. *)
Theorem persisted_record_follows_session
    (ops : list Operation) (w : World)
    (Hbrowser : Forall delivered_in_browser ops)
    (Hagrees : record_agrees w) :
  record_agrees (perform_all Number_toString ops w).
Proof.
  revert w Hagrees. induction ops as [|op ops IH]; intros w Hagrees; cbn [perform_all].
  - exact Hagrees.
  - apply Forall_cons in Hbrowser. destruct Hbrowser as [Hop Hops].
    apply IH; [exact Hops|]. apply perform_keeps_record; assumption.
Qed.

End PersistedRecord.

(* ------------------------------------------------------------------ *)
(** ** The displayed address *)

Lemma append_cons (c : ascii) (a b : string) :
  String.append (String c a) b = String c (String.append a b).
Proof. reflexivity. Qed.

Lemma append_empty (b : string) : String.append EmptyString b = b.
Proof. reflexivity. Qed.

Lemma string_length_append (a b : string) :
  String.length (String.append a b) = (String.length a + String.length b)%nat.
Proof.
  induction a as [|c a IH]; [reflexivity|].
  rewrite append_cons. cbn [String.length Nat.add]. rewrite IH. reflexivity.
Qed.

Lemma append_assoc (a b c : string) :
  String.append a (String.append b c) = String.append (String.append a b) c.
Proof.
  induction a as [|x a IH]; [reflexivity|].
  rewrite !append_cons, IH. reflexivity.
Qed.

Lemma substring_whole (s : string) (n : nat) :
  (String.length s <= n)%nat -> substring 0 n s = s.
Proof.
  revert n. induction s as [|c s IH]; intros n Hlen.
  - destruct n; reflexivity.
  - destruct n as [|n]; cbn [String.length] in Hlen; [lia|].
    cbn [substring]. rewrite IH by lia. reflexivity.
Qed.

Lemma substring_head (a b : string) :
  substring 0 (String.length a) (String.append a b) = a.
Proof.
  induction a as [|c a IH].
  - rewrite append_empty. destruct b; reflexivity.
  - rewrite append_cons. cbn [String.length substring]. rewrite IH. reflexivity.
Qed.

Lemma substring_tail (a b : string) :
  substring (String.length a) (String.length b) (String.append a b) = b.
Proof.
  induction a as [|c a IH].
  - rewrite append_empty. apply substring_whole. lia.
  - rewrite append_cons. cbn [String.length substring]. exact IH.
Qed.

Lemma substring_length_le (s : string) (n m : nat) :
  (String.length (substring n m s) <= m)%nat.
Proof.
  revert n m. induction s as [|c s IH]; intros n m.
  - destruct n, m; cbn [substring String.length]; lia.
  - destruct n as [|n].
    + destruct m as [|m]; cbn [substring String.length]; [lia|].
      specialize (IH 0%nat m). lia.
    + cbn [substring]. apply IH.
Qed.

(** An address of ten characters or more is shown as its first six and its
    last four characters around three dots. *)
Theorem truncateAddress_keeps_both_ends (first middle last : string)
    (Hfirst : String.length first = 6%nat)
    (Hlast : String.length last = 4%nat) :
  truncateAddress (String.append first (String.append middle last)) =
    String.append first (String.append "..." last).
Proof.
  unfold truncateAddress, JsText.slice_first, JsText.slice_last.
  assert (Htruthy : Js.truthy (String.append first (String.append middle last)) = true).
  { destruct first; [discriminate Hfirst|reflexivity]. }
  rewrite Htruthy. rewrite <- Hfirst at 1. rewrite substring_head.
  f_equal. f_equal.
  rewrite append_assoc.
  rewrite string_length_append, Hlast.
  replace (String.length (String.append first middle) + 4 - 4)%nat
    with (String.length (String.append first middle)) by lia.
  rewrite <- Hlast. rewrite substring_tail. reflexivity.
Qed.

(** The display never exceeds thirteen characters and is empty only for the
    empty address. *)
Theorem truncateAddress_bounds (address : string) :
  (String.length (truncateAddress address) <= 13)%nat /\
  (truncateAddress address = EmptyString <-> address = EmptyString).
Proof.
  unfold truncateAddress, JsText.slice_first, JsText.slice_last.
  destruct (Js.truthy address) eqn:Htruthy.
  - split.
    + rewrite !string_length_append.
      pose proof (substring_length_le address 0 6).
      pose proof (substring_length_le address (String.length address - 4) 4).
      cbn [String.length]. lia.
    + split; intros H.
      * destruct address as [|c rest]; [reflexivity|].
        cbn [substring] in H. rewrite append_cons in H. discriminate H.
      * subst address. discriminate Htruthy.
  - split; [cbn; lia|].
    split; [intros _|reflexivity]. destruct address; [reflexivity|discriminate Htruthy].
Qed.

(** A non-empty string of at most four characters is not shortened: it is
    shown twice, around the dots. *)
Theorem truncateAddress_short_twice (address : string)
    (Hnonempty : address <> EmptyString)
    (Hshort : (String.length address <= 4)%nat) :
  truncateAddress address = String.append address (String.append "..." address).
Proof.
  unfold truncateAddress, JsText.slice_first, JsText.slice_last.
  apply truthy_nonempty in Hnonempty. rewrite Hnonempty.
  replace (String.length address - 4)%nat with 0%nat by lia.
  rewrite !substring_whole by lia. reflexivity.
Qed.

(* ------------------------------------------------------------------ *)
(** ** The displayed network *)

Lemma to_uint_not_nil (n : N) : N.to_uint n <> Decimal.Nil.
Proof.
  destruct n as [|p]; [discriminate|].
  intros H. apply (f_equal N.of_uint) in H.
  rewrite DecimalN.Unsigned.of_to in H. discriminate H.
Qed.

(** Different non-negative integers have different digits. *)
Lemma digits_inj (a b : Z) : 0 <= a -> 0 <= b -> Js.digits a = Js.digits b -> a = b.
Proof.
  intros Ha Hb H. unfold Js.digits in H.
  apply (f_equal NilZero.uint_of_string) in H.
  rewrite !NilZero.usu in H by apply to_uint_not_nil.
  injection H as H. apply (f_equal N.of_uint) in H.
  rewrite !DecimalN.Unsigned.of_to in H. lia.
Qed.

Section DisplayFacts.

Variable Number_toString : spec_float -> string.

Lemma of_number_safe (x : spec_float) (n : Z) :
  JsText.safe_integer x = Some n ->
  JsText.of_number Number_toString x = decimal_of n.
Proof.
  intros H. unfold JsText.of_number.
  destruct x; try discriminate H; rewrite H; reflexivity.
Qed.

Lemma chains_decimal (n : Z) :
  default EmptyString (chains !! decimal_of n) = default EmptyString (known_chain n).
Proof.
  unfold decimal_of, known_chain.
  destruct (Z.ltb_spec n 0) as [Hneg|Hpos].
  - repeat match goal with
      |- context [n =? ?k] => destruct (Z.eqb_spec n k); [lia|]
    end.
    unfold chains.
    rewrite !lookup_insert_ne; [reflexivity|..];
      intros H; rewrite append_cons in H; discriminate H.
  - rewrite append_empty, Z.abs_eq by lia.
    repeat match goal with
      |- context [n =? ?k] => destruct (Z.eqb_spec n k); [subst n; reflexivity|]
    end.
    unfold chains.
    rewrite !lookup_insert_ne; [reflexivity|..];
      intros H;
      match type of H with
      | ?k = _ =>
          match goal with
          | Hne : n <> ?z |- _ =>
              change k with (Js.digits z) in H; apply digits_inj in H; [lia|lia|lia]
          end
      end.
Qed.

(** For a chain id that is an integer of magnitude at most 2^53,
    [getChainName] shows the network's name when it is one of the five it
    knows and "Chain ID" followed by the decimal id otherwise, the initial 0
    included. *)
Theorem getChainName_by_id (s : Session) (n : Z)
    (Hinteger : JsText.safe_integer (chainId s) = Some n) :
  getChainName Number_toString s =
    default (String.append "Chain ID " (decimal_of n)) (known_chain n).
Proof.
  unfold getChainName. rewrite (of_number_safe _ _ Hinteger).
  rewrite chains_decimal. unfold known_chain, Js.or_else.
  repeat match goal with
    |- context [n =? ?k] => destruct (Z.eqb_spec n k); [reflexivity|]
  end.
  reflexivity.
Qed.

End DisplayFacts.

(* ------------------------------------------------------------------ *)
(** ** The panel toggle and the self transfer *)

(** A click on the header inverts [showWallet] and stores the new value's
    text under [show-wallet]; it leaves the wallet's persisted record alone,
    and a second click restores the session. *)
Theorem toggle_wallet_panel (w : World) :
  let once := toggleWallet w in
  let twice := toggleWallet once in
  showWallet (sess once) = negb (showWallet (sess w)) /\
  localStorage once !! "show-wallet" = Some (JsText.of_bool (showWallet (sess once))) /\
  localStorage once !! "walletConnected" = localStorage w !! "walletConnected" /\
  localStorage once !! "walletAddress" = localStorage w !! "walletAddress" /\
  sess twice = sess w /\
  localStorage twice !! "show-wallet" = Some (JsText.of_bool (showWallet (sess w))).
Proof.
  intros once twice; subst once twice.
  unfold toggleWallet, set_showWallet; js_cbn.
  rewrite negb_involutive.
  repeat split; try apply lookup_insert_eq;
    try (apply lookup_insert_ne; discriminate).
  apply session_eta.
Qed.

(** [sendEthToSelf] always completes with [isSending] cleared.  It writes
    [error] at most, asks for at most one transaction, always from the
    session's address to itself for 0x38d7ea4c68000 wei, and schedules the
    balance refresh exactly when that request was granted. *)
Theorem send_eth_frame (W : option Window) (reply : SendReply) (w : World) :
  let r := sendEthToSelf W reply w in
  fst (fst r) = Val tt /\
  isSending (sess (snd (fst r))) = false /\
  apply_write (WError (error (sess w))) (sess (snd (fst r))) = sess (set_isSending false w) /\
  localStorage (snd (fst r)) = localStorage w /\
  listeners (snd (fst r)) = listeners w /\
  (snd r = [] \/
   exists p,
     let req := SendTransactionRequest p (address (sess w)) (address (sess w))
                  "0x38d7ea4c68000" in
     match reply with
     | Sent _ => snd r = [req; RefreshTimer 5000]
     | Refused _ => snd r = [req]
     end).
Proof.
  intros r; subst r. unfold sendEthToSelf, sendEthToSelf_try.
  cbn [set_isSending sess address].
  destruct (getFrameSDK W ?> wallet ?> ethProvider) as [p|];
    [|destruct W as [window|]; [destruct (ethereum window) as [eth|]|]];
    destruct reply as [hash|c];
    unfold assign, set_isSending; js_cbn;
    (repeat match goal with |- _ /\ _ => split end); try reflexivity;
    first [ left; reflexivity | right; eexists; reflexivity ].
Qed.

(** In a page, [sendEthToSelf] sends through the provider [getProvider]
    resolves there, and without one it reports "No provider found" and asks
    for nothing. *)
Theorem send_eth_uses_resolved_provider
    (window : Window) (reply : SendReply) (w : World) :
  let r := sendEthToSelf (Some window) reply w in
  match getProvider (Some window) with
  | Some p =>
      head (snd r) =
        Some (SendTransactionRequest p (address (sess w)) (address (sess w))
                self_transfer_value)
  | None =>
      snd r = [] /\ error (sess (snd (fst r))) = "No provider found"%string
  end.
Proof.
  intros r; subst r.
  unfold sendEthToSelf, sendEthToSelf_try, getProvider, getProvider_logged, getFrameSDK.
  destruct window as [fr eth]. cbn [chain frame ethereum set_isSending sess address].
  destruct fr as [[[[[[[p|]]|]]|] fe]|];
    cbn [chain sdk wallet ethProvider snd];
    destruct eth as [[h ps]|]; cbn [chain ethereum handle snd];
    destruct reply as [hash|c]; try reflexivity;
    split; reflexivity.
Qed.

(** When the provider refuses the transaction, an [Error] is shown by its
    message, while any other rejection value, whatever message it carries, is
    shown as "Failed to send ETH"; no refresh is scheduled. *)
Theorem send_eth_refusal_message
    (W : option Window) (p : nat) (c : Caught) (w : World)
    (Hprovider : getProvider W = Some p) :
  let r := sendEthToSelf W (Refused c) w in
  error (sess (snd (fst r))) =
    (if instance_of_Error c then default EmptyString (message (thrown c))
     else "Failed to send ETH"%string) /\
  snd r = [SendTransactionRequest p (address (sess w)) (address (sess w))
             self_transfer_value].
Proof.
  intros r; subst r. revert Hprovider.
  unfold sendEthToSelf, sendEthToSelf_try, getProvider, getProvider_logged, getFrameSDK.
  destruct W as [[fr eth]|]; [|discriminate].
  cbn [chain frame ethereum set_isSending sess address].
  destruct fr as [[[[[[[q|]]|]]|] fe]|];
    cbn [chain sdk wallet ethProvider snd];
    destruct eth as [[h ps]|]; cbn [chain ethereum handle snd default length bool_decide];
    intros Hprovider; try discriminate Hprovider;
    injection Hprovider as <-; split; reflexivity.
Qed.

(* ------------------------------------------------------------------ *)
(** ** The first revision of [connectWallet] *)

Section FirstRevisionFacts.

Variable Number_toString : spec_float -> string.

(** In the first revision a rejected authorization is never reported: the
    session is reset to disconnected and [error] keeps whatever it held. *)
Theorem first_revision_rejection_unreported
    (sdk_ethProvider : option nat) (e : Env) (w : World)
    (p : nat) (environment : string) (err : JsError)
    (Hprovider : FirstRevision.choose_provider sdk_ethProvider (win e) = Some (p, environment))
    (Hrejected : requestAccounts_reply e = Rejected err) :
  let r := FirstRevision.connectWallet Number_toString sdk_ethProvider e w in
  fst r = Val tt /\
  sess (snd r) = apply_write (WIsConnected false) (apply_write (WAddress "") (sess w)) /\
  error (sess (snd r)) = error (sess w) /\
  trace (snd r) =
    trace w ++ [EvRequest p eth_requestAccounts; EvWrite (WAddress "");
                EvWrite (WIsConnected false)].
Proof.
  intros r; subst r. unfold FirstRevision.connectWallet.
  rewrite Hprovider. run_op. rewrite Hrejected. js_cbn.
  repeat split; try reflexivity. rewrite <- ?app_assoc. reflexivity.
Qed.

(** There a granted authorization is undone when the chain id query that
    follows is rejected with an object: the session ends disconnected with an
    empty address, again without a message.  That query goes to the provider
    directly, which may also reject with a primitive, [undefined] or [null]:
    then the first statement of the catch block throws, the two resets are
    not reached, and the session stays connected to the granted account. *)
Theorem first_revision_chain_failure_disconnects
    (sdk_ethProvider : option nat) (e : Env) (w : World)
    (p : nat) (environment : string)
    (first : string) (others : list string) (reason : Reason)
    (Hprovider : FirstRevision.choose_provider sdk_ethProvider (win e) = Some (p, environment))
    (Hgranted : requestAccounts_reply e = Fulfilled (Some (first :: others)))
    (Hchain : chainId_reply e = Rejected reason) :
  let r := FirstRevision.connectWallet Number_toString sdk_ethProvider e w in
  error (sess (snd r)) = error (sess w) /\
  match reason with
  | Raised _ =>
      fst r = Val tt /\
      address (sess (snd r)) = EmptyString /\
      isConnected (sess (snd r)) = false
  | Primitive shown =>
      fst r = Thrown (cannot_create "value" shown) /\
      address (sess (snd r)) = first /\
      isConnected (sess (snd r)) = true
  | Empty n =>
      fst r = Thrown (cannot_read n "message") /\
      address (sess (snd r)) = first /\
      isConnected (sess (snd r)) = true
  end.
Proof.
  intros r; subst r. unfold FirstRevision.connectWallet.
  rewrite Hprovider.
  unfold FirstRevision.fetchEthBalance, FirstRevision.fetchUsdcBalance.
  run_op. rewrite Hgranted, Hchain. js_cbn.
  destruct reason as [obj|shown|n], (win_eth e) as [weth|], (win_usdc e) as [wusdc|]; js_cbn;
    repeat (break_match; js_cbn); repeat split; reflexivity.
Qed.

End FirstRevisionFacts.

(* ------------------------------------------------------------------ *)
(** ** Across a reload *)

Section Reload.

Variable Number_toString : spec_float -> string.

Lemma connect_persists
    (e : Env) (w : World) (p : nat) (first : string) (others : list string) :
  getProvider (win e) = Some p ->
  requestAccounts_reply e = Fulfilled (Some (first :: others)) ->
  record_names (localStorage (snd (connectWallet Number_toString e w))) first.
Proof.
  intros Hprovider Hgranted. run_op. rewrite Hprovider, Hgranted. js_cbn.
  destruct (win e) as [window|] eqn:Hwin;
    [|rewrite getProvider_needs_window in Hprovider; discriminate].
  repeat (break_match; js_cbn).
  all: unfold record_names; js_cbn; split.
  all: try (rewrite lookup_insert_ne by discriminate; apply lookup_insert_eq).
  all: apply lookup_insert_eq.
Qed.

Lemma disconnect_clears_record (e : Env) (w : World) :
  win e <> None ->
  usable_record (localStorage (snd (accountsChangedHandler Number_toString e [] w))) = false.
Proof.
  intros Hbrowser. run_op.
  destruct (win e) as [window|] eqn:Hwin; [|congruence].
  js_cbn. unfold usable_record.
  rewrite lookup_delete_eq. apply andb_false_r.
Qed.

(** What [connectWallet] persisted is what the next page load restores: when
    the wallet then lists no account but grants the prompt, the mount task
    connects the new session to the account of the last one. *)
Theorem reload_restores_connected_account
    (e before : Env) (w : World) (p q : nat)
    (first : string) (others : list string) (reply granted : option (list string))
    (Hprovider : getProvider (win before) = Some p)
    (Hfirst : requestAccounts_reply before = Fulfilled (Some (first :: others)))
    (Hnamed : first <> EmptyString)
    (Hlater : getProvider (win e) = Some q)
    (Haccounts : accounts_reply e = Fulfilled reply)
    (Hempty : reply = None \/ reply = Some [])
    (Hgranted : requestAccounts_reply e = Fulfilled granted) :
  let last := snd (connectWallet Number_toString before w) in
  let r := checkExistingConnection Number_toString e (reload last) in
  address (sess (snd r)) = first /\
  isConnected (sess (snd r)) = true /\
  record_names (localStorage (snd r)) first.
Proof.
  intros last r; subst last r.
  destruct (connect_persists before w p first others Hprovider Hfirst) as [Hflag Hsaved].
  pose proof (reconnect_adopts_saved Number_toString e
                (reload (snd (connectWallet Number_toString before w)))
                q reply granted first Hlater Haccounts Hempty Hflag Hsaved Hnamed Hgranted)
    as Hrestored.
  cbv zeta in Hrestored. destruct Hrestored as (_ & Haddr & Hconn & _ & Hrecord).
  split; [exact Haddr|]. split; [exact Hconn|exact Hrecord].
Qed.

(** After the wallet reported that no account is left, the next page load
    does not prompt: with no account listed it makes its one silent query and
    leaves the fresh session as it is. *)
Theorem reload_after_disconnect_is_silent
    (e before : Env) (w : World) (q : nat) (reply : option (list string))
    (Hbrowser : win before <> None)
    (Hlater : getProvider (win e) = Some q)
    (Haccounts : accounts_reply e = Fulfilled reply)
    (Hempty : reply = None \/ reply = Some []) :
  let last := snd (accountsChangedHandler Number_toString before [] w) in
  checkExistingConnection Number_toString e (reload last) =
    (Val tt, log_event (EvRequest q eth_accounts) (reload last)).
Proof.
  intros last; subst last.
  apply (silent_account_query Number_toString e _ q reply Hlater Haccounts Hempty).
  apply disconnect_clears_record, Hbrowser.
Qed.

End Reload.

(* ------------------------------------------------------------------ *)
(** ** Further instances *)

Lemma mount_without_provider_witness :
  error (sess (snd (checkExistingConnection Sample.exponent_form Sample.server initial_world)))
  = "No wallet provider found. Please install MetaMask or use a Farcaster app."%string.
Proof.
  pose proof (mount_without_provider Sample.exponent_form Sample.server initial_world
                eq_refl) as H.
  cbv zeta in H. destruct H as (_ & H & _). rewrite H. reflexivity.
Defined.

Lemma mount_adopts_authorized_account_witness :
  address (sess (snd (checkExistingConnection Sample.exponent_form Sample.listing
                        initial_world))) = "0xabc"%string.
Proof.
  pose proof (mount_adopts_authorized_account Sample.exponent_form Sample.listing
                initial_world 7%nat "0xabc" [] eq_refl eq_refl) as H.
  cbv zeta in H. destruct H as (_ & H & _). exact H.
Defined.

Lemma mount_first_visit_silent_witness :
  checkExistingConnection Sample.exponent_form Sample.granting initial_world =
    (Val tt, log_event (EvRequest 7%nat eth_accounts) initial_world).
Proof.
  apply (mount_first_visit_silent Sample.exponent_form Sample.granting initial_world
           7%nat (Some [])).
  - reflexivity.
  - reflexivity.
  - right. reflexivity.
  - vm_compute. reflexivity.
Defined.

Lemma mount_reconnect_rejected_witness :
  record_cleared
    (localStorage (snd (checkExistingConnection Sample.exponent_form Sample.rejecting
                          Sample.returning_world))).
Proof.
  assert (Hrecord : usable_record (localStorage Sample.returning_world) = true)
    by (vm_compute; reflexivity).
  pose proof (mount_reconnect_rejected Sample.exponent_form Sample.rejecting
                Sample.returning_world 7%nat (Some []) Sample.user_rejected
                eq_refl eq_refl (or_intror eq_refl) Hrecord eq_refl) as H.
  cbv zeta in H. destruct H as (_ & _ & H & _). exact H.
Defined.

Lemma mount_reconnect_adopts_saved_witness :
  address (sess (snd (checkExistingConnection Sample.exponent_form Sample.granting
                        Sample.returning_world))) = "0xabc"%string.
Proof.
  assert (Hflag : localStorage Sample.returning_world !! "walletConnected"
                  = Some "true"%string) by (vm_compute; reflexivity).
  assert (Hsaved : localStorage Sample.returning_world !! "walletAddress"
                   = Some "0xabc"%string) by (vm_compute; reflexivity).
  assert (Hnonempty : "0xabc"%string <> EmptyString) by discriminate.
  pose proof (mount_reconnect_adopts_saved Sample.exponent_form Sample.granting
                Sample.returning_world 7%nat (Some []) (Some ["0xabc"%string]) "0xabc"
                eq_refl eq_refl (or_intror eq_refl) Hflag Hsaved Hnonempty eq_refl) as H.
  cbv zeta in H. destruct H as (_ & H & _). exact H.
Defined.

Lemma connect_adopts_first_account_witness :
  address (sess (snd (connectWallet Sample.exponent_form Sample.granting initial_world)))
  = "0xabc"%string.
Proof.
  pose proof (connect_adopts_first_account Sample.exponent_form Sample.granting
                initial_world 7%nat "0xabc" [] eq_refl eq_refl) as H.
  cbv zeta in H. destruct H as (H & _). exact H.
Defined.

Lemma connect_without_accounts_witness :
  fst (connectWallet Sample.exponent_form Sample.empty_handed initial_world) = Val tt.
Proof.
  pose proof (connect_without_accounts Sample.exponent_form Sample.empty_handed
                initial_world 7%nat (Some []) eq_refl eq_refl (or_intror eq_refl)) as H.
  cbv zeta in H. destruct H as (H & _). exact H.
Defined.

Lemma account_change_adopts_first_witness :
  address (sess (snd (accountsChangedHandler Sample.exponent_form Sample.granting
                        ["0xdef"%string; "0xabc"%string] initial_world))) = "0xdef"%string.
Proof.
  assert (Hbrowser : win Sample.granting <> None) by discriminate.
  pose proof (account_change_adopts_first Sample.exponent_form Sample.granting
                initial_world "0xdef" ["0xabc"%string] Hbrowser) as H.
  cbv zeta in H. destruct H as (_ & H & _). exact H.
Defined.

Lemma chain_change_without_account_witness :
  chainChangedHandler Sample.exponent_form Sample.granting "0x1" initial_world =
    (Val tt,
     {| sess := apply_write (WChainId (Js.parseInt16 "0x1")) (sess initial_world);
        localStorage := localStorage initial_world; listeners := listeners initial_world;
        trace := trace initial_world ++ [EvWrite (WChainId (Js.parseInt16 "0x1"))] |}).
Proof.
  apply (chain_change_without_account Sample.exponent_form Sample.granting "0x1"
           initial_world).
  reflexivity.
Defined.

Lemma transfer_skips_prompt_when_authorized_witness :
  exists t,
    trace (snd (sendTransaction Sample.exponent_form Sample.listing Sample.connected_world))
      = trace Sample.connected_world ++ t /\
    existsb is_prompt t = false /\
    filter is_transfer t =
      [EvTransfer 7%nat USDC_CONTRACT (address (sess Sample.connected_world)) 10000
         (address (sess Sample.connected_world))].
Proof.
  apply (transfer_skips_prompt_when_authorized Sample.exponent_form Sample.listing
           Sample.connected_world
           {| frame := None; ethereum := Some {| handle := 7%nat; providers := None |} |}
           7%nat "0xabc" []).
  - vm_compute. reflexivity.
  - reflexivity.
  - reflexivity.
  - reflexivity.
Defined.

Lemma transfer_prompt_rejected_witness :
  error (sess (snd (sendTransaction Sample.exponent_form Sample.rejecting
                      Sample.connected_world)))
  = "Please approve the wallet connection request"%string.
Proof.
  assert (Hconnected : isConnected (sess Sample.connected_world) = true)
    by (vm_compute; reflexivity).
  pose proof (transfer_prompt_rejected Sample.exponent_form Sample.rejecting
                Sample.connected_world
                {| frame := None; ethereum := Some {| handle := 7%nat; providers := None |} |}
                7%nat (Some []) Sample.user_rejected
                Hconnected eq_refl eq_refl eq_refl (or_intror eq_refl) eq_refl) as H.
  cbv zeta in H. destruct H as (_ & H & _). rewrite H. reflexivity.
Defined.

Lemma transfer_error_classified_witness :
  error (sess (snd (sendTransaction Sample.exponent_form Sample.listing
                      Sample.connected_world)))
  = "Please approve the transaction in your wallet"%string.
Proof.
  assert (Hconnected : isConnected (sess Sample.connected_world) = true)
    by (vm_compute; reflexivity).
  pose proof (transfer_error_classified Sample.exponent_form Sample.listing
                Sample.connected_world
                {| frame := None; ethereum := Some {| handle := 7%nat; providers := None |} |}
                7%nat "0xabc" []
                {| message := Some "Account not authorized for this action"%string |}
                Hconnected eq_refl eq_refl eq_refl eq_refl) as H.
  cbv zeta in H. destruct H as (_ & H & _). rewrite H. reflexivity.
Defined.

Lemma transfer_ignores_sdk_provider_witness :
  sendTransaction Sample.exponent_form Sample.in_frame Sample.connected_world =
    (Val tt,
     {| sess := apply_write (WError "No Ethereum provider found")
                  (sess Sample.connected_world);
        localStorage := localStorage Sample.connected_world;
        listeners := listeners Sample.connected_world;
        trace := trace Sample.connected_world
                 ++ [EvWrite (WError "No Ethereum provider found")] |}).
Proof.
  apply (transfer_ignores_sdk_provider Sample.exponent_form Sample.in_frame
           Sample.connected_world Sample.sdk_only 3%nat).
  - vm_compute. reflexivity.
  - reflexivity.
  - reflexivity.
  - reflexivity.
  - reflexivity.
Defined.

Lemma persisted_record_follows_session_witness :
  record_agrees
    (perform_all Sample.exponent_form
       [OpInitializeSession Sample.granting Sample.browser;
        OpConnect Sample.granting;
        OpAccountsChanged Sample.granting 7%nat ["0xdef"%string];
        OpSendTransfer Sample.listing;
        OpAccountsChanged Sample.granting 7%nat []]
       initial_world).
Proof.
  apply (persisted_record_follows_session Sample.exponent_form).
  - repeat constructor; discriminate.
  - vm_compute. reflexivity.
Defined.

Lemma truncateAddress_keeps_both_ends_witness :
  truncateAddress "0x833589fCD6eDb6E08f4c7C32D4f71b54bdA02913" = "0x8335...2913"%string.
Proof.
  apply (truncateAddress_keeps_both_ends "0x8335" "89fCD6eDb6E08f4c7C32D4f71b54bdA0" "2913");
    reflexivity.
Defined.

Lemma truncateAddress_short_twice_witness :
  truncateAddress "0x1" = "0x1...0x1"%string.
Proof.
  apply (truncateAddress_short_twice "0x1").
  - discriminate.
  - vm_compute. repeat constructor.
Defined.

Lemma getChainName_by_id_witness :
  getChainName Sample.exponent_form SampleAction.on_base = "Base"%string.
Proof.
  apply (getChainName_by_id Sample.exponent_form SampleAction.on_base 8453).
  vm_compute. reflexivity.
Defined.

Lemma send_eth_refusal_message_witness :
  error (sess (snd (fst (sendEthToSelf Sample.browser
                           (Refused SampleAction.plain_rejection)
                           Sample.connected_world))))
  = "Failed to send ETH"%string.
Proof.
  pose proof (send_eth_refusal_message Sample.browser 7%nat SampleAction.plain_rejection
                Sample.connected_world eq_refl) as H.
  cbv zeta in H. destruct H as (H & _). rewrite H. reflexivity.
Defined.

Lemma first_revision_rejection_unreported_witness :
  error (sess (snd (FirstRevision.connectWallet Sample.exponent_form None Sample.rejecting
                      initial_world))) = error (sess initial_world).
Proof.
  pose proof (first_revision_rejection_unreported Sample.exponent_form None
                Sample.rejecting initial_world 7%nat "Desktop" Sample.user_rejected
                eq_refl eq_refl) as H.
  cbv zeta in H. destruct H as (_ & _ & H & _). exact H.
Defined.

Lemma first_revision_chain_failure_disconnects_witness :
  address (sess (snd (FirstRevision.connectWallet Sample.exponent_form None
                        Sample.chainless initial_world))) = EmptyString /\
  address (sess (snd (FirstRevision.connectWallet Sample.exponent_form None
                        SampleAction.chain_rejected_with_text initial_world)))
  = "0xabc"%string.
Proof.
  split.
  - pose proof (first_revision_chain_failure_disconnects Sample.exponent_form None
                  Sample.chainless initial_world 7%nat "Desktop" "0xabc" []
                  {| message := Some "Internal JSON-RPC error."%string |}
                  eq_refl eq_refl eq_refl) as H.
    cbv zeta beta iota in H. destruct H as (_ & _ & H & _). exact H.
  - pose proof (first_revision_chain_failure_disconnects Sample.exponent_form None
                  SampleAction.chain_rejected_with_text initial_world 7%nat "Desktop"
                  "0xabc" [] (Primitive "string 'timeout'")
                  eq_refl eq_refl eq_refl) as H.
    cbv zeta beta iota in H. destruct H as (_ & _ & H & _). exact H.
Defined.

Lemma reload_restores_connected_account_witness :
  address
    (sess (snd (checkExistingConnection Sample.exponent_form Sample.granting
                  (reload Sample.connected_world)))) = "0xabc"%string.
Proof.
  assert (Hnamed : "0xabc"%string <> EmptyString) by discriminate.
  pose proof (reload_restores_connected_account Sample.exponent_form Sample.granting
                Sample.granting initial_world 7%nat 7%nat "0xabc" []
                (Some []) (Some ["0xabc"%string])
                eq_refl eq_refl Hnamed eq_refl eq_refl (or_intror eq_refl) eq_refl) as H.
  cbv zeta in H. destruct H as (H & _). exact H.
Defined.

Lemma reload_after_disconnect_is_silent_witness :
  fst (checkExistingConnection Sample.exponent_form Sample.granting
         (reload (snd (accountsChangedHandler Sample.exponent_form Sample.granting []
                         Sample.connected_world)))) = Val tt.
Proof.
  assert (Hbrowser : win Sample.granting <> None) by discriminate.
  pose proof (reload_after_disconnect_is_silent Sample.exponent_form Sample.granting
                Sample.granting Sample.connected_world 7%nat (Some [])
                Hbrowser eq_refl eq_refl (or_intror eq_refl)) as H.
  cbv zeta in H. rewrite H. reflexivity.
Defined.
